(** * The upload gateway of pmWebApp: [frontend/pages/api/upload.ts]

    A shallow embedding of the Next.js API route [handler] and of the part
    of its environment it talks to (Clerk, the file system, formidable,
    fetch), followed by the properties of the request life cycle. *)

From Stdlib Require Import ZArith Ascii String DecimalString.
From stdpp Require Import base decidable list strings gmap.

Set Warnings "-register-all".
Local Open Scope string_scope.
Local Open Scope Z_scope.
Local Open Scope list_scope.

(** ** JavaScript values *)

Module Js.

(** What [JSON.parse] can produce.  Numbers are kept to the integers; the
    handler only ever tests a number for truthiness.  An object is the list
    of its own properties in insertion order. *)
Inductive json : Type :=
| JNull
| JBool (b : bool)
| JNum (n : Z)
| JStr (s : string)
| JArr (items : list json)
| JObj (props : list (string * json)).

(** A value read in the handler is JSON or [undefined] ([None]). *)
Definition value : Type := option json.

(** How an expression completes: normally, or by throwing an [Error] whose
    [message] is kept. *)
Inductive completion (A : Type) : Type :=
| Normal (a : A)
| Thrown (message : string).
Arguments Normal {A} a.
Arguments Thrown {A} message.

(** [ToBoolean]. *)
Definition truthy (v : value) : bool :=
  match v with
  | None | Some JNull => false
  | Some (JBool b) => b
  | Some (JNum n) => negb (n =? 0)
  | Some (JStr s) => negb (s =? "")%string
  | Some (JArr _) | Some (JObj _) => true
  end.

(** [ToBoolean] of a [string | null | undefined]. *)
Definition falsy (o : option string) : bool :=
  match o with
  | None => true
  | Some s => (s =? "")%string
  end.

(** [o || d] on a [string | null | undefined]. *)
Definition or_else (o : option string) (d : string) : string :=
  if falsy o then d else default d o.

(** [`${o}`]. *)
Definition text (o : option string) : string := default "null" o.

Fixpoint assoc {A : Type} (k : string) (l : list (string * A)) : option A :=
  match l with
  | [] => None
  | (k', a) :: rest => if (k' =? k)%string then Some a else assoc k rest
  end.

(** The own property [k] of [v]; only an object has any. *)
Definition own (v : json) (k : string) : value :=
  match v with
  | JObj props => assoc k props
  | _ => None
  end.

(** [v.k] for the three names the handler reads ([success], [message],
    [data]); none of them is defined on a built-in prototype, so on a
    boolean, number, string or array the read gives [undefined].  On [null]
    it throws a [TypeError] (message as V8 words it). *)
Definition get_prop (v : json) (k : string) : completion value :=
  match v with
  | JNull => Thrown ("Cannot read properties of null (reading '" +:+ k +:+ "')")
  | _ => Normal (own v k)
  end.

(** An object literal as [JSON.stringify] writes it: a property whose value
    is [undefined] is left out. *)
Fixpoint object (fields : list (string * value)) : list (string * json) :=
  match fields with
  | [] => []
  | (k, Some v) :: rest => (k, v) :: object rest
  | (_, None) :: rest => object rest
  end.

(** [l.includes(o)] on an array of strings; [null] and [undefined] are in
    none. *)
Definition includes (l : list string) (o : option string) : bool :=
  match o with
  | Some s => existsb (fun x => (x =? s)%string) l
  | None => false
  end.

Definition lower (c : ascii) : ascii :=
  let n := N_of_ascii c in
  if ((65 <=? n) && (n <=? 90))%N then ascii_of_N (n + 32) else c.

(** [String.prototype.toLowerCase], on the ASCII letters. *)
Fixpoint toLowerCase (s : string) : string :=
  match s with
  | EmptyString => EmptyString
  | String c rest => String (lower c) (toLowerCase rest)
  end.

End Js.

(** ** [path] (POSIX flavour) *)

Module Path.

Record scan : Type := Scan {
  startDot : Z;
  startPart : Z;
  end_ : Z;
  matchedSlash : bool;
  preDotState : Z
}.

Definition scan0 : scan := Scan (-1) 0 (-1) true 0.

(** The loop of Node's [path.posix.extname], which walks the path from its
    last character (index [i]) down to the first. *)
Fixpoint extname_loop (rev : list ascii) (i : Z) (st : scan) : scan :=
  match rev with
  | [] => st
  | c :: rest =>
    if Ascii.eqb c "/"%char then
      if negb (matchedSlash st)
      then Scan (startDot st) (i + 1) (end_ st) (matchedSlash st) (preDotState st)
      else extname_loop rest (i - 1) st
    else
      let st1 :=
        if end_ st =? -1
        then Scan (startDot st) (startPart st) (i + 1) false (preDotState st)
        else st in
      let st2 :=
        if Ascii.eqb c "."%char
        then
          if startDot st1 =? -1
          then Scan i (startPart st1) (end_ st1) (matchedSlash st1) (preDotState st1)
          else Scan (startDot st1) (startPart st1) (end_ st1) (matchedSlash st1) 1
        else
          if negb (startDot st1 =? -1)
          then Scan (startDot st1) (startPart st1) (end_ st1) (matchedSlash st1) (-1)
          else st1 in
      extname_loop rest (i - 1) st2
  end.

Definition extname (p : string) : string :=
  let st := extname_loop (rev (list_ascii_of_string p))
                         (Z.of_nat (String.length p) - 1) scan0 in
  if (startDot st =? -1) || (end_ st =? -1) || (preDotState st =? 0)
     || ((preDotState st =? 1) && (startDot st =? end_ st - 1)
         && (startDot st =? startPart st + 1))
  then ""
  else substring (Z.to_nat (startDot st)) (Z.to_nat (end_ st - startDot st)) p.

(** [path.join(cwd, '/tmp/uploads')] for a working directory as
    [process.cwd()] gives it: absolute, normalised, with no trailing slash
    unless it is the root. *)
Definition join (cwd rel : string) : string :=
  if (cwd =? "/")%string then rel else cwd +:+ rel.

End Path.

(** ** [Blob] *)

Module Blob.
Import Js.

(** The test of [/[^\u{0020}-\u{007E}]/u] on one character: Node's
    [disallowedTypeCharacters].  A character is a byte here, and every byte
    of a character past U+007E is past 126. *)
Definition disallowedTypeCharacter (c : ascii) : bool :=
  let n := N_of_ascii c in
  negb ((32 <=? n) && (n <=? 126))%N.

(** The [type] of [new Blob(parts, { type })]: the one given, lower-cased,
    or the empty string when it has a character that is not allowed. *)
Definition type (given : string) : string :=
  if existsb disallowedTypeCharacter (list_ascii_of_string given) then ""
  else toLowerCase given.

End Blob.

(** ** The route [pages/api/upload.ts] *)

Module Upload.
Import Js.

(** *** What the handler sees of a request and of its environment *)

(** A [formidable.PersistentFile]. *)
Record File : Type := {
  filepath : string;
  originalFilename : option string;
  mimetype : option string
}.

(** The value of one property of formidable's [files]. *)
Inductive FieldValue : Type :=
| Single (f : File)
| Several (fs : list File).

(** What formidable hands to the callback of [form.parse]: [err], or the
    [files] it has written under [uploadDir]. *)
Inductive Parsed : Type :=
| ParseError (message : string)
| ParseDone (files : list (string * FieldValue)).

Record Request : Type := {
  method : string;
  userId : option string;     (* [getAuth(req).userId] *)
  token : option string;      (* what [await getToken()] resolves to *)
  upload : Parsed
}.

(** The body of the backend's response, read with [.json()]. *)
Inductive Body : Type :=
| Json (v : json)
| NotJson (cause : string).

(** What [await fetch(targetUrl, ...)] does. *)
Inductive Fetched : Type :=
| FetchFailed (cause : string)
| Response (status : Z) (body : Body).

Record Env : Type := {
  cwd : string;                         (* [process.cwd()] *)
  mkdirError : option string;           (* [Some m]: [fs.mkdirSync] throws *)
  NEXT_PUBLIC_BACKEND_API_URL : option string;
  backend : Fetched
}.

(** *** Effects *)

(** The calls the handler makes on the outside world, in the order it
    makes them.  [Respond status body] is [res.status(status).json(body)],
    the call that sends the HTTP response. *)
Inductive event : Type :=
| SetHeader (name : string) (values : list string)
| GetAuth
| GetToken
| ExistsSync (p : string)
| MkdirSync (p : string)
| FormParse (uploadDir : string) (keepExtensions : bool) (maxFileSize : Z)
| UnlinkSync (p : string)
| ReadFileSync (p : string)
| Fetch (url method authorization field filename blobType : string)
| ResponseJson
| ConsoleError (label : string)
| Respond (status : Z) (body : json).

(** The paths that exist on disk, and the calls made so far. *)
Record World : Type := {
  disk : gset string;
  trace : list event
}.

(** A computation reads and changes the world and may throw. *)
Definition M (A : Type) : Type := World -> completion A * World.

Definition ret {A} (a : A) : M A := fun w => (Normal a, w).

Definition bind {A B} (m : M A) (k : A -> M B) : M B :=
  fun w =>
    match m w with
    | (Normal a, w') => k a w'
    | (Thrown e, w') => (Thrown e, w')
    end.

Definition throw {A} (e : string) : M A := fun w => (Thrown e, w).

Definition emit (e : event) : M unit :=
  fun w => (Normal tt, {| disk := disk w; trace := trace w ++ [e] |}).

(** [try { m } catch (e) { ... }]: the completion of [m] is handed to the
    code that follows. *)
Definition attempt {A} (m : M A) : M (completion A) :=
  fun w => let (r, w') := m w in (Normal r, w').

(** [try { m } finally { cleanup }]: [cleanup] runs once [m] has completed,
    whichever way, and the completion of [m] is kept unless [cleanup]
    throws. *)
Definition finally {A} (m : M A) (cleanup : M unit) : M A :=
  fun w =>
    let (r, w1) := m w in
    match cleanup w1 with
    | (Normal _, w2) => (r, w2)
    | (Thrown e, w2) => (Thrown e, w2)
    end.

(** The evaluation of an expression that may throw. *)
Definition eval {A} (c : completion A) : M A := fun w => (c, w).

Declare Scope gateway_scope.
Delimit Scope gateway_scope with gateway.
Notation "x <- m ;; k" := (bind m (fun x => k))
  (at level 100, m at next level, right associativity) : gateway_scope.
Notation "m ;; k" := (bind m (fun _ => k))
  (at level 100, right associativity) : gateway_scope.
Local Open Scope gateway_scope.

(** *** The outside world *)

Definition getAuth : M unit := emit GetAuth.

Definition getToken (req : Request) : M (option string) :=
  emit GetToken ;; ret (token req).

Definition existsSync (p : string) : M bool :=
  emit (ExistsSync p) ;;
  fun w => (Normal (bool_decide (p ∈ disk w)), w).

(** [fs.mkdirSync(p, { recursive: true })]. *)
Definition mkdirSync (env : Env) (p : string) : M unit :=
  emit (MkdirSync p) ;;
  match mkdirError env with
  | Some e => throw e
  | None => fun w => (Normal tt, {| disk := {[ p ]} ∪ disk w; trace := trace w |})
  end.

Definition enoent (call p : string) : string :=
  "ENOENT: no such file or directory, " +:+ call +:+ " '" +:+ p +:+ "'".

(** [fs.unlinkSync(p)]: removes [p], and throws when there is no [p]. *)
Definition unlinkSync (p : string) : M unit :=
  emit (UnlinkSync p) ;;
  fun w =>
    if bool_decide (p ∈ disk w)
    then (Normal tt, {| disk := disk w ∖ {[ p ]}; trace := trace w |})
    else (Thrown (enoent "unlink" p), w).

(** [fs.readFileSync(p)]; the bytes read are not looked at. *)
Definition readFileSync (p : string) : M unit :=
  emit (ReadFileSync p) ;;
  fun w =>
    if bool_decide (p ∈ disk w) then (Normal tt, w)
    else (Thrown (enoent "open" p), w).

Definition files_of (v : FieldValue) : list File :=
  match v with
  | Single f => [f]
  | Several fs => fs
  end.

(** The paths formidable has written by the time it calls back. *)
Definition staged (p : Parsed) : list string :=
  match p with
  | ParseError _ => []
  | ParseDone files =>
      concat (map (fun kv => map filepath (files_of (snd kv))) files)
  end.

(** [form.parse(req, callback)] up to the call of [callback]. *)
Definition form_parse (req : Request) (uploadDir : string)
                      (keepExtensions : bool) (maxFileSize : Z) : M Parsed :=
  emit (FormParse uploadDir keepExtensions maxFileSize) ;;
  fun w => (Normal (upload req),
            {| disk := list_to_set (staged (upload req)) ∪ disk w;
               trace := trace w |}).

Definition fetch (env : Env) (url method authorization field filename blobType : string)
  : M (Z * Body) :=
  emit (Fetch url method authorization field filename blobType) ;;
  match backend env with
  | FetchFailed cause => throw cause
  | Response status body => ret (status, body)
  end.

(** [backendResponse.ok]. *)
Definition ok (status : Z) : bool := (200 <=? status) && (status <=? 299).

(** [await backendResponse.json()]. *)
Definition response_json (body : Body) : M json :=
  emit ResponseJson ;;
  match body with
  | Json v => ret v
  | NotJson cause => throw cause
  end.

Definition console_error (label : string) : M unit := emit (ConsoleError label).

(** [return res.status(status).json(body)]. *)
Definition respond (status : Z) (body : json) : M unit := emit (Respond status body).

(** *** The handler *)

Definition message_only (m : string) : json := JObj [("message", JStr m)].

Definition allowedMimeTypes : list string :=
  ["text/csv"; "application/xml"; "application/xes"; "application/vnd.ms-excel"].
Definition allowedExtensions : list string := [".csv"; ".xes"; ".xlsx"].

Definition maxFileSize : Z := 100 * 1024 * 1024.

(** [path.extname(persistentFile.originalFilename || '').toLowerCase()] *)
Definition fileExt (f : File) : string :=
  toLowerCase (Path.extname (or_else (originalFilename f) "")).

(** The test that guards the rejection of a file for its type (line 94). *)
Definition invalid_file_type (f : File) : bool :=
  falsy (mimetype f)
  || (negb (includes allowedMimeTypes (mimetype f))
      && negb (includes allowedExtensions (Some (fileExt f)))).

Definition no_file_message : string :=
  "No file uploaded or multiple files received. Please upload a single event log file.".
Definition invalid_type_message : string :=
  "Invalid file type. Please upload a .csv, .xes, or .xlsx file. Received: ".
Definition backend_error_message : string := "Error processing file with backend.".
Definition bad_gateway_message : string :=
  "Bad Gateway: Could not connect to backend service. ".

(** The object literal sent when the backend's response is not [ok]
    (lines 136-140); its three property reads throw on [null]. *)
Definition error_envelope (backendData : json) : M json :=
  success <- eval (get_prop backendData "success") ;;
  message <- eval (get_prop backendData "message") ;;
  data <- eval (get_prop backendData "data") ;;
  ret (JObj (object
    [ ("success", match success with Some _ => success | None => Some (JBool false) end);
      ("message", if truthy message then message else Some (JStr backend_error_message));
      ("data", data) ])).

(** The [try] block (lines 114-143): read the staged file, post it, answer
    with what the backend said. *)
Definition proxy (env : Env) (token : option string) (persistentFile : File)
                 (targetUrl : string) : M unit :=
  readFileSync (filepath persistentFile) ;;
  backendResponse <-
    fetch env targetUrl "POST" ("Bearer " +:+ text token) "file"
          (or_else (originalFilename persistentFile) "uploaded_file.csv")
          (Blob.type (or_else (mimetype persistentFile) "application/octet-stream")) ;;
  backendData <- response_json (snd backendResponse) ;;
  if negb (ok (fst backendResponse)) then
    body <- error_envelope backendData ;;
    respond (fst backendResponse) body
  else
    respond 200 backendData.

(** The [finally] block (lines 148-157). *)
Definition cleanup (persistentFile : File) : M unit :=
  if negb (falsy (Some (filepath persistentFile))) then
    r <- attempt (unlinkSync (filepath persistentFile)) ;;
    match r with
    | Thrown _ => console_error "Failed to cleanup temp file:"
    | Normal _ => ret tt
    end
  else ret tt.

(** [try { ... } catch (proxyError) { ... } finally { ... }].  Each
    [return res.status(..).json(..)] of the [try] and [catch] blocks evaluates
    its operand, which sends the response, before control passes to
    [finally]. *)
Definition relay (env : Env) (token : option string) (persistentFile : File)
                 (targetUrl : string) : M unit :=
  finally
    (r <- attempt (proxy env token persistentFile targetUrl) ;;
     match r with
     | Thrown proxyError =>
         console_error "Error proxying request to backend:" ;;
         respond 502 (message_only (bad_gateway_message +:+ proxyError))
     | Normal _ => ret tt
     end)
    (cleanup persistentFile).

(** The callback from [const persistentFile = uploadedFile] on (lines
    87-157): type check, configuration check, relay. *)
Definition on_file (env : Env) (token : option string) (persistentFile : File) : M unit :=
  if invalid_file_type persistentFile then
    r <- attempt (unlinkSync (filepath persistentFile)) ;;
    match r with
    | Thrown _ => console_error "Failed to cleanup invalid temp file:"
    | Normal _ => ret tt
    end ;;
    respond 400 (message_only
                   (invalid_type_message
                    +:+ or_else (mimetype persistentFile) (fileExt persistentFile)))
  else
    let backendApiUrl := NEXT_PUBLIC_BACKEND_API_URL env in
    if falsy backendApiUrl then
      console_error "Backend API URL is not configured." ;;
      attempt (unlinkSync (filepath persistentFile)) ;;
      respond 500 (message_only "Server configuration error: Backend API URL missing.")
    else
      relay env token persistentFile (text backendApiUrl +:+ "/process").

(** The callback given to [form.parse] (lines 73-85). *)
Definition on_parsed (env : Env) (token : option string) (parsed : Parsed) : M unit :=
  match parsed with
  | ParseError message =>
      console_error "Error parsing form data:" ;;
      respond 500 (message_only ("File upload failed: " +:+ message))
  | ParseDone files =>
      match assoc "eventLogFile" files with
      | None | Some (Several _) => respond 400 (message_only no_file_message)
      | Some (Single uploadedFile) =>
          if falsy (Some (filepath uploadedFile)) then
            respond 400 (message_only no_file_message)
          else
            on_file env token uploadedFile
      end
  end.

(** [path.join(process.cwd(), '/tmp/uploads')] *)
Definition tempUploadDir (env : Env) : string := Path.join (cwd env) "/tmp/uploads".

(** [handler] (lines 38-73): method gate, Clerk, upload directory,
    formidable. *)
Definition handler (env : Env) (req : Request) : M unit :=
  if negb (method req =? "POST")%string then
    emit (SetHeader "Allow" ["POST"]) ;;
    respond 405 (message_only "Method Not Allowed")
  else
    getAuth ;;
    if falsy (userId req) then
      respond 401 (message_only "Unauthorized: No user ID found.")
    else
      token <- getToken req ;;
      if falsy token then
        respond 401 (message_only "Unauthorized: No token available.")
      else
        r <- attempt (present <- existsSync (tempUploadDir env) ;;
                      if negb present then mkdirSync env (tempUploadDir env) else ret tt) ;;
        match r with
        | Thrown _ =>
            console_error "Failed to create temp upload directory:" ;;
            respond 500 (message_only "Server configuration error for file uploads.")
        | Normal _ =>
            parsed <- form_parse req (tempUploadDir env) true maxFileSize ;;
            on_parsed env token parsed
        end.

(** One request served on a disk holding [d]. *)
Definition serve (env : Env) (req : Request) (d : gset string) : completion unit * World :=
  handler env req {| disk := d; trace := [] |}.

(** *** Reading a trace *)

Definition responses (t : list event) : list (Z * json) :=
  omap (fun e => match e with Respond st b => Some (st, b) | _ => None end) t.

Definition is_unlink (p : string) (e : event) : bool :=
  match e with
  | UnlinkSync q => (q =? p)%string
  | _ => false
  end.

(** How many times [fs.unlinkSync(p)] was called. *)
Fixpoint unlinks (p : string) (t : list event) : nat :=
  match t with
  | [] => 0%nat
  | e :: rest => ((if is_unlink p e then 1 else 0) + unlinks p rest)%nat
  end.

(** [p] was unlinked before the first response went out. *)
Fixpoint unlinked_before_response (p : string) (t : list event) : bool :=
  match t with
  | [] => false
  | Respond _ _ :: _ => false
  | e :: rest => is_unlink p e || unlinked_before_response p rest
  end.

(** A response went out before [p] was first unlinked. *)
Fixpoint responded_before_unlink (p : string) (t : list event) : bool :=
  match t with
  | [] => false
  | Respond _ _ :: _ => true
  | e :: rest => negb (is_unlink p e) && responded_before_unlink p rest
  end.

(** Calls that test or change the disk or parse the multipart body. *)
Definition file_handling (e : event) : bool :=
  match e with
  | ExistsSync _ | MkdirSync _ | FormParse _ _ _ | UnlinkSync _ | ReadFileSync _ => true
  | _ => false
  end.

Definition backend_call (e : event) : bool :=
  match e with
  | Fetch _ _ _ _ _ _ | ResponseJson => true
  | _ => false
  end.

Definition authentication (e : event) : bool :=
  match e with
  | GetAuth | GetToken => true
  | _ => false
  end.

Definition never (what : event -> bool) (t : list event) : bool :=
  forallb (fun e => negb (what e)) t.

(** The calls up to the parsing of the body, for an authenticated POST. *)
Definition entry (env : Env) (d : gset string) : list event :=
  [GetAuth; GetToken; ExistsSync (tempUploadDir env)]
  ++ (if bool_decide (tempUploadDir env ∈ d) then [] else [MkdirSync (tempUploadDir env)])
  ++ [FormParse (tempUploadDir env) true maxFileSize].

(** The disk once the upload directory is there. *)
Definition with_dir (env : Env) (d : gset string) : gset string :=
  if bool_decide (tempUploadDir env ∈ d) then d else {[ tempUploadDir env ]} ∪ d.

(** The [fetch] the handler makes for [f]. *)
Definition the_fetch (env : Env) (token : option string) (f : File) : event :=
  Fetch (text (NEXT_PUBLIC_BACKEND_API_URL env) +:+ "/process") "POST"
        ("Bearer " +:+ text token) "file"
        (or_else (originalFilename f) "uploaded_file.csv")
        (Blob.type (or_else (mimetype f) "application/octet-stream")).

(** What [error_envelope] builds from a reply that is not [null]. *)
Definition envelope (v : json) : json :=
  JObj (object
    [ ("success", match own v "success" with
                  | Some s => Some s
                  | None => Some (JBool false)
                  end);
      ("message", if truthy (own v "message") then own v "message"
                  else Some (JStr backend_error_message));
      ("data", own v "data") ]).

(** The world in which formidable calls back, for an authenticated POST. *)
Definition parsed_world (env : Env) (req : Request) (d : gset string) : World :=
  {| disk := list_to_set (staged (upload req)) ∪ with_dir env d;
     trace := entry env d |}.

(** The failure classes in which the gateway answers on its own. *)
Inductive gateway_failure (env : Env) (req : Request) (d : gset string) : Prop :=
| MethodNotAllowed :
    method req <> "POST" -> gateway_failure env req d
| Unauthenticated :
    falsy (userId req) = true -> gateway_failure env req d
| TokenUnavailable :
    falsy (token req) = true -> gateway_failure env req d
| StorageUnavailable e :
    tempUploadDir env ∉ d -> mkdirError env = Some e -> gateway_failure env req d
| MalformedUpload message :
    upload req = ParseError message -> gateway_failure env req d
| InvalidUpload files :
    upload req = ParseDone files ->
    (forall f, assoc "eventLogFile" files = Some (Single f) ->
               falsy (Some (filepath f)) = true) ->
    gateway_failure env req d
| InvalidFileType files f :
    upload req = ParseDone files ->
    assoc "eventLogFile" files = Some (Single f) ->
    invalid_file_type f = true ->
    gateway_failure env req d
| ConfigurationError :
    falsy (NEXT_PUBLIC_BACKEND_API_URL env) = true -> gateway_failure env req d
| TransportFailure cause :
    backend env = FetchFailed cause -> gateway_failure env req d
| MalformedReply status cause :
    backend env = Response status (NotJson cause) -> gateway_failure env req d.

Arguments bind {A B} m k _ /.
Arguments ret {A} a _ /.
Arguments throw {A} e _ /.
Arguments emit e _ /.
Arguments attempt {A} m _ /.
Arguments finally {A} m cleanup _ /.
Arguments eval {A} c _ /.
Arguments getAuth _ /.
Arguments getToken req _ /.
Arguments existsSync p _ /.
Arguments mkdirSync env p _ /.
Arguments unlinkSync p _ /.
Arguments readFileSync p _ /.
Arguments form_parse req uploadDir keepExtensions maxFileSize _ /.
Arguments fetch env url method authorization field filename blobType _ /.
Arguments response_json body _ /.
Arguments console_error label _ /.
Arguments respond status body _ /.
Arguments error_envelope backendData _ /.

End Upload.

Arguments Path.join : simpl never.
Arguments String.append : simpl never.
Arguments Upload.tempUploadDir : simpl never.
Arguments Blob.type : simpl never.

(** ** Requests and environments used as examples *)

Module Scenario.
Import Js Upload.

Definition orders_csv : File :=
  {| filepath := "/srv/app/tmp/uploads/3f9a1c.csv";
     originalFilename := Some "orders.csv";
     mimetype := Some "text/csv" |}.

(** The same upload sent without a content type. *)
Definition untyped_csv : File :=
  {| filepath := "/srv/app/tmp/uploads/3f9a1c.csv";
     originalFilename := Some "orders.csv";
     mimetype := None |}.

Definition report_pdf : File :=
  {| filepath := "/srv/app/tmp/uploads/77b0e2.pdf";
     originalFilename := Some "report.pdf";
     mimetype := Some "application/pdf" |}.

Definition second_csv : File :=
  {| filepath := "/srv/app/tmp/uploads/c41d02.csv";
     originalFilename := Some "returns.csv";
     mimetype := Some "text/csv" |}.

Definition server (b : Fetched) : Env :=
  {| cwd := "/srv/app";
     mkdirError := None;
     NEXT_PUBLIC_BACKEND_API_URL := Some "http://backend:5000/api";
     backend := b |}.

Definition unconfigured : Env :=
  {| cwd := "/srv/app";
     mkdirError := None;
     NEXT_PUBLIC_BACKEND_API_URL := None;
     backend := FetchFailed "fetch failed" |}.

Definition post (u : Parsed) : Request :=
  {| method := "POST"; userId := Some "user_2a"; token := Some "eyJhbGciOi"; upload := u |}.

Definition one (f : File) : Parsed := ParseDone [("eventLogFile", Single f)].

Definition anonymous (m : string) : Request :=
  {| method := m; userId := None; token := None; upload := one orders_csv |}.

Definition full_data : json :=
  JObj [("processGraph", JObj [("nodes", JArr []); ("links", JArr [])]);
        ("llmInsights", JObj [("summary", JStr "ok")])].

Definition partial_data : json :=
  JObj [("processGraph", JObj [("nodes", JArr []); ("links", JArr [])]);
        ("llmInsights", JNull)].

Definition refused : Fetched := FetchFailed "connect ECONNREFUSED 127.0.0.1:5000".

Definition two_files : Parsed :=
  ParseDone [("eventLogFile", Several [orders_csv; second_csv])].

Definition oversized : Parsed :=
  ParseError "options.maxFileSize (104857600 bytes) exceeded".

(** Replies of the backend. *)
Definition ok_without_data : json :=
  JObj [("success", JBool true); ("message", JStr "done")].
Definition timeout_reply : json :=
  JObj [("success", JBool false); ("message", JStr "LLM timeout")].
Definition silent_reply : json :=
  JObj [("success", JBool false); ("message", JStr "")].
Definition bare_reply : json := JObj [("data", partial_data)].

End Scenario.

(** ** Every way out of [handler] *)

Module Exits.
Import Js Upload.

Definition is_fetch (e : event) : bool :=
  match e with
  | Fetch _ _ _ _ _ _ => true
  | _ => false
  end.

(** How many times [fetch] was called. *)
Fixpoint fetches (t : list event) : nat :=
  match t with
  | [] => 0%nat
  | e :: rest => ((if is_fetch e then 1 else 0) + fetches rest)%nat
  end.

(** The paths given to [fs.unlinkSync], in order. *)
Definition unlinked (t : list event) : list string :=
  omap (fun e => match e with UnlinkSync p => Some p | _ => None end) t.

(** The request gets as far as [form.parse]. *)
Definition parsing (env : Env) (req : Request) (d : gset string) : Prop :=
  method req = "POST"
  /\ falsy (userId req) = false
  /\ falsy (token req) = false
  /\ (tempUploadDir env ∈ d \/ mkdirError env = None).

(** The request gets past the single-file test with [f]. *)
Definition staging (env : Env) (req : Request) (d : gset string)
                   (files : list (string * FieldValue)) (f : File) : Prop :=
  parsing env req d
  /\ upload req = ParseDone files
  /\ assoc "eventLogFile" files = Some (Single f)
  /\ falsy (Some (filepath f)) = false.

(** The request gets to the [try] block with [f]. *)
Definition relaying (env : Env) (req : Request) (d : gset string)
                    (files : list (string * FieldValue)) (f : File) : Prop :=
  staging env req d files f
  /\ invalid_file_type f = false
  /\ falsy (NEXT_PUBLIC_BACKEND_API_URL env) = false.

(** The world [handler] leaves behind, one constructor for each [return]. *)
Inductive exit (env : Env) (req : Request) (d : gset string) : World -> Prop :=
| exit_method :
    method req <> "POST" ->
    exit env req d
      {| disk := d;
         trace := [SetHeader "Allow" ["POST"];
                   Respond 405 (message_only "Method Not Allowed")] |}
| exit_no_user :
    method req = "POST" -> falsy (userId req) = true ->
    exit env req d
      {| disk := d;
         trace := [GetAuth;
                   Respond 401 (message_only "Unauthorized: No user ID found.")] |}
| exit_no_token :
    method req = "POST" -> falsy (userId req) = false -> falsy (token req) = true ->
    exit env req d
      {| disk := d;
         trace := [GetAuth; GetToken;
                   Respond 401 (message_only "Unauthorized: No token available.")] |}
| exit_no_dir e :
    method req = "POST" -> falsy (userId req) = false -> falsy (token req) = false ->
    tempUploadDir env ∉ d -> mkdirError env = Some e ->
    exit env req d
      {| disk := d;
         trace := [GetAuth; GetToken; ExistsSync (tempUploadDir env);
                   MkdirSync (tempUploadDir env);
                   ConsoleError "Failed to create temp upload directory:";
                   Respond 500 (message_only
                                  "Server configuration error for file uploads.")] |}
| exit_parse_error message :
    parsing env req d -> upload req = ParseError message ->
    exit env req d
      {| disk := with_dir env d;
         trace := entry env d ++
           [ConsoleError "Error parsing form data:";
            Respond 500 (message_only ("File upload failed: " +:+ message))] |}
| exit_no_file files :
    parsing env req d -> upload req = ParseDone files ->
    (forall f, assoc "eventLogFile" files = Some (Single f) ->
               falsy (Some (filepath f)) = true) ->
    exit env req d
      {| disk := disk (parsed_world env req d);
         trace := entry env d ++ [Respond 400 (message_only no_file_message)] |}
| exit_invalid files f :
    staging env req d files f -> invalid_file_type f = true ->
    exit env req d
      {| disk := disk (parsed_world env req d) ∖ {[ filepath f ]};
         trace := entry env d ++
           [UnlinkSync (filepath f);
            Respond 400 (message_only (invalid_type_message
                                       +:+ or_else (mimetype f) (fileExt f)))] |}
| exit_unconfigured files f :
    staging env req d files f -> invalid_file_type f = false ->
    falsy (NEXT_PUBLIC_BACKEND_API_URL env) = true ->
    exit env req d
      {| disk := disk (parsed_world env req d) ∖ {[ filepath f ]};
         trace := entry env d ++
           [ConsoleError "Backend API URL is not configured.";
            UnlinkSync (filepath f);
            Respond 500 (message_only
                           "Server configuration error: Backend API URL missing.")] |}
| exit_fetch_failed files f cause :
    relaying env req d files f -> backend env = FetchFailed cause ->
    exit env req d
      {| disk := disk (parsed_world env req d) ∖ {[ filepath f ]};
         trace := entry env d ++
           [ReadFileSync (filepath f); the_fetch env (token req) f;
            ConsoleError "Error proxying request to backend:";
            Respond 502 (message_only (bad_gateway_message +:+ cause));
            UnlinkSync (filepath f)] |}
| exit_not_json files f status cause :
    relaying env req d files f -> backend env = Response status (NotJson cause) ->
    exit env req d
      {| disk := disk (parsed_world env req d) ∖ {[ filepath f ]};
         trace := entry env d ++
           [ReadFileSync (filepath f); the_fetch env (token req) f; ResponseJson;
            ConsoleError "Error proxying request to backend:";
            Respond 502 (message_only (bad_gateway_message +:+ cause));
            UnlinkSync (filepath f)] |}
| exit_ok files f status v :
    relaying env req d files f -> backend env = Response status (Json v) ->
    ok status = true ->
    exit env req d
      {| disk := disk (parsed_world env req d) ∖ {[ filepath f ]};
         trace := entry env d ++
           [ReadFileSync (filepath f); the_fetch env (token req) f; ResponseJson;
            Respond 200 v;
            UnlinkSync (filepath f)] |}
| exit_not_ok files f status v :
    relaying env req d files f -> backend env = Response status (Json v) ->
    ok status = false -> v <> JNull ->
    exit env req d
      {| disk := disk (parsed_world env req d) ∖ {[ filepath f ]};
         trace := entry env d ++
           [ReadFileSync (filepath f); the_fetch env (token req) f; ResponseJson;
            Respond status (envelope v);
            UnlinkSync (filepath f)] |}
| exit_not_ok_null files f status :
    relaying env req d files f -> backend env = Response status (Json JNull) ->
    ok status = false ->
    exit env req d
      {| disk := disk (parsed_world env req d) ∖ {[ filepath f ]};
         trace := entry env d ++
           [ReadFileSync (filepath f); the_fetch env (token req) f; ResponseJson;
            ConsoleError "Error proxying request to backend:";
            Respond 502 (message_only
                           (bad_gateway_message
                            +:+ "Cannot read properties of null (reading 'success')"));
            UnlinkSync (filepath f)] |}.

End Exits.

(** ** The page [pages/dashboard.tsx] *)

Module Dashboard.
Import Js Upload.

(** The React state of [Dashboard].  A selected [File] is kept by its name;
    [error] and [successMessage] hold [null], a string, or whatever truthy
    [message] a reply carried; the two results can also be [undefined]. *)
Record State : Type := {
  file : option string;
  isLoading : bool;
  error : json;
  successMessage : json;
  processGraphData : value;
  llmInsightsData : value
}.

(** What the page asks of the browser and of Clerk. *)
Inductive call : Type :=
| PreventDefault
| ResetInput                              (* [e.target.value = ''] *)
| SessionToken                            (* [getToken()] *)
| Post (url field filename : string)      (* [fetch(url, { method: 'POST', body })] *)
| ReadJson                                (* [res.json()] *)
| LogError (label : string).

(** What the browser answers: the session token and the reply to the POST. *)
Record Net : Type := {
  sessionToken : option string;
  reply : Fetched
}.

(** A handler changes the state, makes calls and may throw. *)
Definition Ui (A : Type) : Type :=
  State * list call -> completion A * (State * list call).

Definition ret {A} (a : A) : Ui A := fun s => (Normal a, s).

Definition bind {A B} (m : Ui A) (k : A -> Ui B) : Ui B :=
  fun s =>
    match m s with
    | (Normal a, s') => k a s'
    | (Thrown e, s') => (Thrown e, s')
    end.

Definition throw {A} (e : string) : Ui A := fun s => (Thrown e, s).

Definition eval {A} (c : completion A) : Ui A := fun s => (c, s).

Definition does (c : call) : Ui unit :=
  fun s => (Normal tt, (fst s, snd s ++ [c])).

Definition set (change : State -> State) : Ui unit :=
  fun s => (Normal tt, (change (fst s), snd s)).

Definition attempt {A} (m : Ui A) : Ui (completion A) :=
  fun s => let (r, s') := m s in (Normal r, s').

Definition finally {A} (m : Ui A) (cleanup : Ui unit) : Ui A :=
  fun s =>
    let (r, s1) := m s in
    match cleanup s1 with
    | (Normal _, s2) => (r, s2)
    | (Thrown e, s2) => (Thrown e, s2)
    end.

Declare Scope ui_scope.
Delimit Scope ui_scope with ui.
Notation "x <- m ;; k" := (bind m (fun x => k))
  (at level 100, m at next level, right associativity) : ui_scope.
Notation "m ;; k" := (bind m (fun _ => k))
  (at level 100, right associativity) : ui_scope.
Local Open Scope ui_scope.

Definition setFile (x : option string) : Ui unit :=
  set (fun s => {| file := x; isLoading := isLoading s; error := error s;
                   successMessage := successMessage s;
                   processGraphData := processGraphData s;
                   llmInsightsData := llmInsightsData s |}).
Definition setIsLoading (x : bool) : Ui unit :=
  set (fun s => {| file := file s; isLoading := x; error := error s;
                   successMessage := successMessage s;
                   processGraphData := processGraphData s;
                   llmInsightsData := llmInsightsData s |}).
Definition setError (x : json) : Ui unit :=
  set (fun s => {| file := file s; isLoading := isLoading s; error := x;
                   successMessage := successMessage s;
                   processGraphData := processGraphData s;
                   llmInsightsData := llmInsightsData s |}).
Definition setSuccessMessage (x : json) : Ui unit :=
  set (fun s => {| file := file s; isLoading := isLoading s; error := error s;
                   successMessage := x;
                   processGraphData := processGraphData s;
                   llmInsightsData := llmInsightsData s |}).
Definition setProcessGraphData (x : value) : Ui unit :=
  set (fun s => {| file := file s; isLoading := isLoading s; error := error s;
                   successMessage := successMessage s;
                   processGraphData := x;
                   llmInsightsData := llmInsightsData s |}).
Definition setLlmInsightsData (x : value) : Ui unit :=
  set (fun s => {| file := file s; isLoading := isLoading s; error := error s;
                   successMessage := successMessage s;
                   processGraphData := processGraphData s;
                   llmInsightsData := x |}).

(** [s.endsWith(suffix)] *)
Definition ends_with (suffix s : string) : bool :=
  (String.length suffix <=? String.length s)%nat
  && (substring (String.length s - String.length suffix) (String.length suffix) s
      =? suffix)%string.

(** [/(\.csv|\.xes|\.xlsx)$/i.exec(name)] finds a match.  Without the [u]
    flag, [i] never folds a character outside ASCII onto an ASCII one, so the
    test is on the ASCII-lowered name. *)
Definition allowedExtensions_test (name : string) : bool :=
  existsb (fun ext => ends_with ext (toLowerCase name)) [".csv"; ".xes"; ".xlsx"].

(** [handleFileChange] (lines 93-112); [files] is [e.target.files], by
    name. *)
Definition handleFileChange (files : option (list string)) : Ui unit :=
  setProcessGraphData (Some JNull) ;;
  setLlmInsightsData (Some JNull) ;;
  setError JNull ;;
  setSuccessMessage JNull ;;
  match files with
  | Some (selectedFile :: _) =>
      if negb (allowedExtensions_test selectedFile) then
        setError (JStr "Invalid file type. Please upload a .csv, .xes, or .xlsx file.") ;;
        setFile None ;;
        does ResetInput
      else
        setFile (Some selectedFile)
  | _ => setFile None
  end.

(** [v.k] on a value that may be [undefined]. *)
Definition read (v : value) (k : string) : completion value :=
  match v with
  | Some j => get_prop j k
  | None => Thrown ("Cannot read properties of undefined (reading '" +:+ k +:+ "')")
  end.

(** [v || d] *)
Definition or_json (v : value) (d : json) : json :=
  match v with
  | Some j => if truthy v then j else d
  | None => d
  end.

Definition getToken (net : Net) : Ui (option string) :=
  does SessionToken ;; ret (sessionToken net).

Definition fetch (net : Net) (url field filename : string) : Ui (Z * Body) :=
  does (Post url field filename) ;;
  match reply net with
  | FetchFailed cause => throw cause
  | Response status body => ret (status, body)
  end.

Definition res_json (body : Body) : Ui json :=
  does ReadJson ;;
  match body with
  | Json v => ret v
  | NotJson cause => throw cause
  end.

(** The [try] block of [handleSubmit] (lines 131-168). *)
Definition submit (net : Net) (file : string) : Ui unit :=
  sessionToken <- getToken net ;;
  if falsy sessionToken then
    setError (JStr "Authentication error. Please sign in again.") ;;
    setIsLoading false
  else
    res <- fetch net "/api/upload" "eventLogFile" file ;;
    result <- res_json (snd res) ;;
    failed <- (if negb (ok (fst res)) then ret true
               else success <- eval (get_prop result "success") ;;
                    ret (negb (truthy success))) ;;
    if failed then
      message <- eval (get_prop result "message") ;;
      setError (or_json message (JStr "An unknown error occurred during processing.")) ;;
      data <- eval (get_prop result "data") ;;
      if truthy data then
        processGraph <- eval (read data "processGraph") ;;
        setProcessGraphData (Some (or_json processGraph JNull)) ;;
        llmInsights <- eval (read data "llmInsights") ;;
        setLlmInsightsData (Some (or_json llmInsights JNull))
      else ret tt
    else
      success <- eval (get_prop result "success") ;;
      data <- (if truthy success then eval (get_prop result "data") else ret success) ;;
      if truthy data then
        message <- eval (get_prop result "message") ;;
        setSuccessMessage (or_json message (JStr "File processed successfully!")) ;;
        processGraph <- eval (read data "processGraph") ;;
        setProcessGraphData processGraph ;;
        llmInsights <- eval (read data "llmInsights") ;;
        setLlmInsightsData llmInsights
      else
        setError (JStr "Received an unexpected response structure from the server.").

(** [handleSubmit] (lines 114-175). *)
Definition handleSubmit (net : Net) : Ui unit :=
  does PreventDefault ;;
  fun s =>
    match file (fst s) with
    | None => setError (JStr "Please select a file to upload.") s
    | Some name =>
        (setIsLoading true ;;
         setError JNull ;;
         setSuccessMessage JNull ;;
         setProcessGraphData (Some JNull) ;;
         setLlmInsightsData (Some JNull) ;;
         finally
           (r <- attempt (submit net name) ;;
            match r with
            | Thrown message =>
                does (LogError "Upload failed:") ;;
                setError (JStr (or_else (Some message)
                  "An unexpected error occurred. Check console for details."))
            | Normal _ => ret tt
            end)
           (setIsLoading false)) s
    end.

(** The state a handler leaves, the calls it made and how it completed. *)
Definition after {A} (m : Ui A) (s : State) : State := fst (snd (m (s, []))).
Definition calls {A} (m : Ui A) (s : State) : list call := snd (snd (m (s, []))).
Definition completes {A} (m : Ui A) (s : State) : completion A := fst (m (s, [])).


(** *** What React makes of the page *)

(** The two components of the results panel.  [InsightsPanel] is not among
    the sources, and [ProcessGraph] draws with D3 inside an effect; all that
    is used of them is whether, mounted with the given props, they render and
    run their effects without throwing.  An error no boundary catches
    unmounts the whole page. *)
Record Components : Type := {
  ProcessGraph : value -> value -> bool;       (* [nodes], [links] *)
  InsightsPanel : json -> bool                 (* [insights] *)
}.

(** The text React writes for a value placed as a child. *)
Inductive leaf : Type :=
| Text (s : string)
| Number (n : Z).

Definition and_also {A : Type} (a b : option (list A)) : option (list A) :=
  match a, b with
  | Some x, Some y => Some (x ++ y)
  | _, _ => None
  end.

(** [{v}] as a child of an element: a string or a number is written as
    text (nothing for the empty string), [null] and the booleans write
    nothing, an array gives its items as children, and on any other object
    React throws ['Objects are not valid as a React child'] ([None]).  What
    [JSON.parse] returns is never a React element. *)
Fixpoint child (v : json) : option (list leaf) :=
  match v with
  | JNull | JBool _ => Some []
  | JNum n => Some [Number n]
  | JStr s => Some (if (s =? "")%string then [] else [Text s])
  | JArr items =>
      (fix each (l : list json) : option (list leaf) :=
         match l with
         | [] => Some []
         | x :: rest => and_also (child x) (each rest)
         end) items
  | JObj _ => None
  end.

(** What lines 227-255 put on the page. *)
Inductive element : Type :=
| Stray (l : leaf)                 (* a falsy guard that React writes: [0] *)
| ErrorBanner (content : list leaf)            (* the [<p>] of line 227 *)
| SuccessBanner (content : list leaf)          (* the [<p>] of line 228 *)
| LoadingPanel                                 (* lines 233-236 *)
| ResultsPanel.                                (* lines 240-254 *)

(** [{v && x}]: [x] when [v] is truthy, [v] itself otherwise, of which React
    writes only the number [0]. *)
Definition guarded (v : value) (x : option (list element)) : option (list element) :=
  if truthy v then x
  else match v with
       | Some (JNum n) => Some [Stray (Number n)]
       | _ => Some []
       end.

(** Line 227: [{error && <p ...>{error}</p>}]. *)
Definition error_banner (s : State) : option (list element) :=
  guarded (Some (error s))
    (option_map (fun content => [ErrorBanner content]) (child (error s))).

(** Line 228: [{successMessage && !error && <p ...>{successMessage}</p>}]. *)
Definition success_banner (s : State) : option (list element) :=
  guarded (Some (successMessage s))
    (if negb (truthy (Some (error s))) then
       option_map (fun content => [SuccessBanner content]) (child (successMessage s))
     else Some []).

(** Lines 232-237: [{isLoading && (...)}]. *)
Definition loading_panel (s : State) : option (list element) :=
  if isLoading s then Some [LoadingPanel] else Some [].

(** Lines 239-255: [{!isLoading && processGraphData && llmInsightsData &&
    (...)}], with [ProcessGraph] given [processGraphData.nodes] and
    [processGraphData.links], and [InsightsPanel] given [llmInsightsData]. *)
Definition results_panel (c : Components) (s : State) : option (list element) :=
  if negb (isLoading s) then
    guarded (processGraphData s)
      (guarded (llmInsightsData s)
         (match processGraphData s, llmInsightsData s with
          | Some graph, Some insights =>
              if ProcessGraph c (own graph "nodes") (own graph "links")
                 && InsightsPanel c insights
              then Some [ResultsPanel] else None
          | _, _ => Some []
          end))
  else Some [].

(** The children of [<main>] that depend on the state (lines 227-255), as
    React commits them inside [<SignedIn>]; [None] when rendering throws. *)
Definition render (c : Components) (s : State) : option (list element) :=
  and_also (error_banner s)
    (and_also (success_banner s)
       (and_also (loading_panel s) (results_panel c s))).

Definition is_error_banner (e : element) : bool :=
  match e with ErrorBanner _ => true | _ => false end.
Definition is_success_banner (e : element) : bool :=
  match e with SuccessBanner _ => true | _ => false end.
Definition is_results_panel (e : element) : bool :=
  match e with ResultsPanel => true | _ => false end.

(** The page is on screen with the given part in it. *)
Definition shows (part : element -> bool) (c : Components) (s : State) : bool :=
  match render c s with
  | Some elements => existsb part elements
  | None => false
  end.
Definition shows_error : Components -> State -> bool := shows is_error_banner.
Definition shows_success : Components -> State -> bool := shows is_success_banner.
Definition shows_results : Components -> State -> bool := shows is_results_panel.

(** A reply the page can put on screen: its [message], when truthy, is
    something React can write, and the two components take the parts of its
    [data] when both are truthy. *)
Definition presentable (c : Components) (v : json) : Prop :=
  is_Some (child (or_json (own v "message") JNull))
  /\ forall data graph insights,
       own v "data" = Some data ->
       own data "processGraph" = Some graph ->
       own data "llmInsights" = Some insights ->
       truthy (Some graph) = true ->
       truthy (Some insights) = true ->
       ProcessGraph c (own graph "nodes") (own graph "links") = true
       /\ InsightsPanel c insights = true.

(** What the browser gets from [/api/upload] when the route serves the
    request: the status and the JSON body of its response. *)
Definition upload_reply (env : Env) (req : Request) (d : gset string) : Fetched :=
  match responses (trace (snd (serve env req d))) with
  | (status, body) :: _ => Response status (Json body)
  | [] => FetchFailed "no response"
  end.

Arguments ret {A} a _ /.
Arguments bind {A B} m k _ /.
Arguments throw {A} e _ /.
Arguments eval {A} c _ /.
Arguments does c _ /.
Arguments set change _ /.
Arguments attempt {A} m _ /.
Arguments finally {A} m cleanup _ /.
Arguments setFile x _ /.
Arguments setIsLoading x _ /.
Arguments setError x _ /.
Arguments setSuccessMessage x _ /.
Arguments setProcessGraphData x _ /.
Arguments setLlmInsightsData x _ /.
Arguments getToken net _ /.
Arguments fetch net url field filename _ /.
Arguments res_json body _ /.

End Dashboard.

(** ** [utils/fetchWithAuth.ts] *)

Module FetchWithAuth.
Import Js.

(** The value of a property of a headers object: a string, or one item of a
    [string[][]] that the spread copied under its index. *)
Inductive HeaderValue : Type :=
| Str (s : string)
| Pair (item : list string).

(** [HeadersInit]: a plain object (a [Record<string, string>] has strings
    only), an array of pairs, or a [Headers] object. *)
Inductive HeadersInit : Type :=
| Plain (props : gmap string HeaderValue)
| Pairs (items : list (list string))
| Instance (entries : list (string * string)).

(** A [RequestInit]: its [headers], [undefined] when absent; the other
    members ([method], [body], ...) are kept as they are. *)
Record RequestInit : Type := {
  headers : option HeadersInit;
  others : gmap string json
}.

(** The property key of the array index [i]: [i] in decimal. *)
Definition index_key (i : nat) : string :=
  NilEmpty.string_of_uint (Nat.to_uint i).

(** [{ ...h }]: the own enumerable properties of [h].  Those of an array are
    its items under their indices; a [Headers] object keeps its entries in
    internal slots and has none; [undefined] gives nothing. *)
Definition spread (h : option HeadersInit) : gmap string HeaderValue :=
  match h with
  | None => ∅
  | Some (Plain props) => props
  | Some (Pairs items) => list_to_map (imap (fun i item => (index_key i, Pair item)) items)
  | Some (Instance _) => ∅
  end.

(** The arguments [fetchWithAuth] gives to [fetch], [token] being what
    [await getToken()] resolved to. *)
Definition fetchWithAuth (token : option string) (url : string) (options : RequestInit)
  : string * RequestInit :=
  let headers :=
    <["Content-Type" := Str "application/json"]>
      (<["Authorization" := Str ("Bearer " +:+ text token)]> (spread (headers options))) in
  (url, {| headers := Some (Plain headers); others := others options |}).

End FetchWithAuth.

(** ** The first version of the route (a file of [src/unnamed]) *)

Module Legacy.
Import Js Upload.
Local Open Scope gateway_scope.

(** [path.join(process.cwd(), '/uploads')] *)
Definition uploadDir (env : Env) : string := Path.join (cwd env) "/uploads".

(** formidable's own ceiling, no [maxFileSize] being given. *)
Definition defaultMaxFileSize : Z := 200 * 1024 * 1024.

(** [render files] stands for what [JSON.stringify] makes of formidable's
    [files]. *)
Definition handler (render : list (string * FieldValue) -> json)
                   (env : Env) (req : Request) : M unit :=
  if negb (method req =? "POST")%string then
    respond 405 (message_only "Method not allowed")
  else
    present <- existsSync (uploadDir env) ;;
    (if negb present then mkdirSync env (uploadDir env) else ret tt) ;;
    parsed <- form_parse req (uploadDir env) true defaultMaxFileSize ;;
    match parsed with
    | ParseError _ => respond 500 (message_only "Upload failed")
    | ParseDone files =>
        respond 200 (JObj [("message", JStr "File uploaded successfully");
                           ("files", render files)])
    end.

Definition serve (render : list (string * FieldValue) -> json)
                 (env : Env) (req : Request) (d : gset string)
  : completion unit * World :=
  handler render env req {| disk := d; trace := [] |}.

End Legacy.

Arguments Legacy.uploadDir : simpl never.

(** ** [middleware.ts] *)

Module Middleware.
Import Js.

Inductive action : Type :=
| Redirect (path base : string)          (* [NextResponse.redirect(new URL(path, base))] *)
| RedirectToSignIn (returnBackUrl : string)
| Next.                                  (* [NextResponse.next()] *)

(** [afterAuth(auth, req)], with [auth.userId], [auth.isPublicRoute],
    [req.nextUrl.pathname] and [req.url]. *)
Definition afterAuth (userId : option string) (isPublicRoute : bool)
                     (pathname url : string) : action :=
  let otherwise :=
    if falsy userId && negb isPublicRoute then RedirectToSignIn url else Next in
  if negb (falsy userId) && isPublicRoute then
    if (pathname =? "/")%string then Redirect "/dashboard" url else otherwise
  else otherwise.

End Middleware.

(** ** More requests, pages and replies used as examples *)

Module Cases.
Import Js Upload Scenario Dashboard.

(** A server that cannot create its upload directory. *)
Definition read_only : Env :=
  {| cwd := "/srv/app";
     mkdirError := Some "EACCES: permission denied, mkdir '/srv/app/tmp/uploads'";
     NEXT_PUBLIC_BACKEND_API_URL := Some "http://backend:5000/api";
     backend := refused |}.

Definition disguised_exe : File :=
  {| filepath := "/srv/app/tmp/uploads/0d11aa.exe";
     originalFilename := Some "setup.exe";
     mimetype := Some "text/csv" |}.

Definition shouting_csv : File :=
  {| filepath := "/srv/app/tmp/uploads/5e20b7.CSV";
     originalFilename := Some "ORDERS.CSV";
     mimetype := Some "application/octet-stream" |}.

Definition capital_csv : File :=
  {| filepath := "/srv/app/tmp/uploads/c41d07.csv";
     originalFilename := Some "orders.csv";
     mimetype := Some "Text/CSV" |}.

Definition readme : File :=
  {| filepath := "/srv/app/tmp/uploads/91c3f0";
     originalFilename := Some "README";
     mimetype := Some "text/plain" |}.

(** The page before and after a file has been chosen. *)
Definition idle : State :=
  {| file := None; isLoading := false; error := JNull; successMessage := JNull;
     processGraphData := Some JNull; llmInsightsData := Some JNull |}.

Definition chosen : State :=
  {| file := Some "orders.csv"; isLoading := false; error := JNull;
     successMessage := JNull;
     processGraphData := Some JNull; llmInsightsData := Some JNull |}.

Definition browser (r : Fetched) : Net :=
  {| sessionToken := Some "eyJhbGciOi"; reply := r |}.

Definition full_reply : json :=
  JObj [("success", JBool true); ("message", JStr "done"); ("data", full_data)].

Definition partial_reply : json :=
  JObj [("success", JBool false); ("message", JStr "LLM step failed");
        ("data", partial_data)].

(** A reply whose [message] is an object rather than a string. *)
Definition structured_reply : json :=
  JObj [("success", JBool false);
        ("message", JObj [("code", JStr "E42"); ("detail", JStr "bad header")])].

(** Components that draw arrays of nodes and links and an object of
    insights, and throw on anything else. *)
Definition components : Components :=
  {| ProcessGraph := fun nodes links =>
       match nodes, links with
       | Some (JArr _), Some (JArr _) => true
       | _, _ => false
       end;
     InsightsPanel := fun insights =>
       match insights with
       | JObj _ => true
       | _ => false
       end |}.

Definition render_nothing (files : list (string * FieldValue)) : json := JObj [].

End Cases.

(** ** Characters of a file name *)

Module Names.

(** Neither a path separator nor a dot. *)
Definition plain (c : ascii) : Prop := c <> "/"%char /\ c <> "."%char.

End Names.

(** * Properties of the request life cycle *)

Import Js Upload Scenario.

Ltac tidy := rewrite <- ?app_assoc; simpl.
Ltac on_disk H := rewrite (bool_decide_eq_true_2 _ H); simpl.

(** ** The exits before the body is parsed *)

Lemma serve_not_post env req d :
  method req <> "POST" ->
  serve env req d =
    (Normal tt,
     {| disk := d;
        trace := [SetHeader "Allow" ["POST"];
                  Respond 405 (message_only "Method Not Allowed")] |}).
Proof.
  intros H. apply String.eqb_neq in H.
  unfold serve, handler. rewrite H. reflexivity.
Qed.

Lemma serve_no_user env req d :
  method req = "POST" -> falsy (userId req) = true ->
  serve env req d =
    (Normal tt,
     {| disk := d;
        trace := [GetAuth;
                  Respond 401 (message_only "Unauthorized: No user ID found.")] |}).
Proof.
  intros H1 H2. unfold serve, handler. rewrite H1, H2. reflexivity.
Qed.

Lemma serve_no_token env req d :
  method req = "POST" -> falsy (userId req) = false -> falsy (token req) = true ->
  serve env req d =
    (Normal tt,
     {| disk := d;
        trace := [GetAuth; GetToken;
                  Respond 401 (message_only "Unauthorized: No token available.")] |}).
Proof.
  intros H1 H2 H3. unfold serve, handler. rewrite H1, H2. simpl.
  rewrite H3. reflexivity.
Qed.

Lemma serve_no_dir env req d e :
  method req = "POST" -> falsy (userId req) = false -> falsy (token req) = false ->
  tempUploadDir env ∉ d -> mkdirError env = Some e ->
  serve env req d =
    (Normal tt,
     {| disk := d;
        trace := [GetAuth; GetToken; ExistsSync (tempUploadDir env);
                  MkdirSync (tempUploadDir env);
                  ConsoleError "Failed to create temp upload directory:";
                  Respond 500 (message_only "Server configuration error for file uploads.")] |}).
Proof.
  intros H1 H2 H3 H4 H5. unfold serve, handler. rewrite H1, H2. simpl.
  rewrite H3. simpl. rewrite (bool_decide_eq_false_2 _ H4). simpl.
  rewrite H5. reflexivity.
Qed.

Section Parsing.
Variables (env : Env) (req : Request) (d : gset string).
Hypothesis Hpost : method req = "POST".
Hypothesis Huser : falsy (userId req) = false.
Hypothesis Htoken : falsy (token req) = false.
Hypothesis Hdir : tempUploadDir env ∈ d \/ mkdirError env = None.

Lemma serve_parsed :
  serve env req d = on_parsed env (token req) (upload req) (parsed_world env req d).
Proof.
  unfold serve, handler, parsed_world, entry, with_dir.
  rewrite Hpost, Huser. simpl. rewrite Htoken. simpl.
  destruct (bool_decide (tempUploadDir env ∈ d)) eqn:E; simpl.
  - reflexivity.
  - destruct Hdir as [Hin | Hmk].
    + apply bool_decide_eq_false in E. contradiction.
    + rewrite Hmk. reflexivity.
Qed.

Lemma serve_no_single_file files :
  upload req = ParseDone files ->
  (forall f, assoc "eventLogFile" files = Some (Single f) ->
             falsy (Some (filepath f)) = true) ->
  serve env req d =
    (Normal tt,
     {| disk := disk (parsed_world env req d);
        trace := entry env d ++ [Respond 400 (message_only no_file_message)] |}).
Proof.
  intros Hup Hnone. rewrite serve_parsed. unfold on_parsed. rewrite Hup.
  destruct (assoc "eventLogFile" files) as [[f | fs] |]; try reflexivity.
  rewrite (Hnone f eq_refl). reflexivity.
Qed.

Lemma serve_parse_error message :
  upload req = ParseError message ->
  serve env req d =
    (Normal tt,
     {| disk := with_dir env d;
        trace := entry env d ++
          [ConsoleError "Error parsing form data:";
           Respond 500 (message_only ("File upload failed: " +:+ message))] |}).
Proof.
  intros Hup. rewrite serve_parsed. unfold parsed_world. rewrite Hup. simpl.
  tidy. by rewrite union_empty_l_L.
Qed.
End Parsing.

(** ** The callback once a single file is at hand *)

Section OnFile.
Variables (env : Env) (tok : option string) (f : File) (w : World).
Hypothesis Hpath : falsy (Some (filepath f)) = false.
Hypothesis Hdisk : filepath f ∈ disk w.

Lemma on_file_invalid :
  invalid_file_type f = true ->
  on_file env tok f w =
    (Normal tt,
     {| disk := disk w ∖ {[ filepath f ]};
        trace := trace w ++
          [UnlinkSync (filepath f);
           Respond 400 (message_only (invalid_type_message
                                      +:+ or_else (mimetype f) (fileExt f)))] |}).
Proof.
  intros Hbad. unfold on_file. rewrite Hbad. simpl.
  on_disk Hdisk. tidy. reflexivity.
Qed.

Hypothesis Hgood : invalid_file_type f = false.

Lemma on_file_unconfigured :
  falsy (NEXT_PUBLIC_BACKEND_API_URL env) = true ->
  on_file env tok f w =
    (Normal tt,
     {| disk := disk w ∖ {[ filepath f ]};
        trace := trace w ++
          [ConsoleError "Backend API URL is not configured.";
           UnlinkSync (filepath f);
           Respond 500 (message_only "Server configuration error: Backend API URL missing.")] |}).
Proof.
  intros Hurl. unfold on_file. rewrite Hgood, Hurl. simpl.
  on_disk Hdisk. tidy. reflexivity.
Qed.

Hypothesis Hurl : falsy (NEXT_PUBLIC_BACKEND_API_URL env) = false.

Ltac enter :=
  unfold on_file, relay, proxy, cleanup; rewrite Hgood, Hurl, Hpath; simpl;
  on_disk Hdisk.

Lemma on_file_fetch_failed cause :
  backend env = FetchFailed cause ->
  on_file env tok f w =
    (Normal tt,
     {| disk := disk w ∖ {[ filepath f ]};
        trace := trace w ++
          [ReadFileSync (filepath f); the_fetch env tok f;
           ConsoleError "Error proxying request to backend:";
           Respond 502 (message_only (bad_gateway_message +:+ cause));
           UnlinkSync (filepath f)] |}).
Proof.
  intros Hb. enter. rewrite Hb. simpl. on_disk Hdisk. tidy. reflexivity.
Qed.

Lemma on_file_not_json status cause :
  backend env = Response status (NotJson cause) ->
  on_file env tok f w =
    (Normal tt,
     {| disk := disk w ∖ {[ filepath f ]};
        trace := trace w ++
          [ReadFileSync (filepath f); the_fetch env tok f; ResponseJson;
           ConsoleError "Error proxying request to backend:";
           Respond 502 (message_only (bad_gateway_message +:+ cause));
           UnlinkSync (filepath f)] |}).
Proof.
  intros Hb. enter. rewrite Hb. simpl. on_disk Hdisk. tidy. reflexivity.
Qed.

Lemma on_file_ok status v :
  backend env = Response status (Json v) -> ok status = true ->
  on_file env tok f w =
    (Normal tt,
     {| disk := disk w ∖ {[ filepath f ]};
        trace := trace w ++
          [ReadFileSync (filepath f); the_fetch env tok f; ResponseJson;
           Respond 200 v;
           UnlinkSync (filepath f)] |}).
Proof.
  intros Hb Hok. enter. rewrite Hb. simpl. rewrite Hok. simpl.
  on_disk Hdisk. tidy. reflexivity.
Qed.

Lemma on_file_not_ok status v :
  backend env = Response status (Json v) -> ok status = false -> v <> JNull ->
  on_file env tok f w =
    (Normal tt,
     {| disk := disk w ∖ {[ filepath f ]};
        trace := trace w ++
          [ReadFileSync (filepath f); the_fetch env tok f; ResponseJson;
           Respond status (envelope v);
           UnlinkSync (filepath f)] |}).
Proof.
  intros Hb Hok Hv. enter. rewrite Hb. simpl. rewrite Hok. simpl.
  unfold envelope.
  destruct v; try contradiction; simpl;
    on_disk Hdisk; tidy; try reflexivity.
  destruct (assoc "success" props); reflexivity.
Qed.

Lemma on_file_not_ok_null status :
  backend env = Response status (Json JNull) -> ok status = false ->
  on_file env tok f w =
    (Normal tt,
     {| disk := disk w ∖ {[ filepath f ]};
        trace := trace w ++
          [ReadFileSync (filepath f); the_fetch env tok f; ResponseJson;
           ConsoleError "Error proxying request to backend:";
           Respond 502 (message_only
                          (bad_gateway_message
                           +:+ "Cannot read properties of null (reading 'success')"));
           UnlinkSync (filepath f)] |}).
Proof.
  intros Hb Hok. enter. rewrite Hb. simpl. rewrite Hok. simpl.
  on_disk Hdisk. tidy. reflexivity.
Qed.
End OnFile.

(** ** Requests whose single file has been staged *)

Lemma single_file_staged files f :
  assoc "eventLogFile" files = Some (Single f) ->
  filepath f ∈ staged (ParseDone files).
Proof.
  induction files as [| [k v] rest IH]; simpl; [discriminate |].
  destruct (k =? "eventLogFile")%string.
  - intros [= ->]. simpl. apply elem_of_cons. by left.
  - intros H. apply elem_of_app. right. exact (IH H).
Qed.

Lemma null_or_not (v : json) : v = JNull \/ v <> JNull.
Proof. destruct v; (by left) || (by right). Qed.


Lemma includes_spec l s : includes l (Some s) = true <-> s ∈ l.
Proof.
  unfold includes. rewrite existsb_exists. split.
  - intros (x & Hin & Heq). apply String.eqb_eq in Heq. subst.
    by apply list_elem_of_In.
  - intros Hin. exists s. split; [by apply list_elem_of_In | apply String.eqb_refl].
Qed.

Lemma falsy_false o : falsy o = false <-> exists s, o = Some s /\ s <> "".
Proof.
  destruct o as [s |]; simpl.
  - rewrite String.eqb_neq. split; [eauto | intros (? & [= <-] & ?); done].
  - split; [discriminate | intros (? & ? & _); discriminate].
Qed.

(** The type test, read as the set of files it lets through. *)
Lemma accepted_iff f :
  invalid_file_type f = false <->
  exists m, mimetype f = Some m /\ m <> ""
            /\ (fileExt f ∈ allowedExtensions \/ m ∈ allowedMimeTypes).
Proof.
  unfold invalid_file_type. rewrite orb_false_iff, andb_false_iff, !negb_false_iff.
  rewrite falsy_false. split.
  - intros [(m & Hm & Hne) Hor]. exists m. rewrite Hm in Hor.
    rewrite !includes_spec in Hor. tauto.
  - intros (m & Hm & Hne & Hor). rewrite Hm, !includes_spec. split; [eauto | tauto].
Qed.

Lemma never_app what t1 t2 : never what (t1 ++ t2) = never what t1 && never what t2.
Proof. apply forallb_app. Qed.

Lemma never_backend_entry env d : never backend_call (entry env d) = true.
Proof. unfold entry. destruct (bool_decide _); reflexivity. Qed.


Lemma unlinks_app p t1 t2 :
  unlinks p (t1 ++ t2) = (unlinks p t1 + unlinks p t2)%nat.
Proof. induction t1 as [| e t1 IH]; simpl; [reflexivity | rewrite IH; lia]. Qed.

Lemma responses_app t1 t2 : responses (t1 ++ t2) = (responses t1 ++ responses t2)%list.
Proof. apply omap_app. Qed.

Lemma unlinks_entry p env d : unlinks p (entry env d) = 0%nat.
Proof. unfold entry. destruct (bool_decide _); reflexivity. Qed.

Lemma responses_entry env d : responses (entry env d) = [].
Proof. unfold entry. destruct (bool_decide _); reflexivity. Qed.

Lemma unlinked_before_response_app p t1 t2 :
  responses t1 = [] -> unlinks p t1 = 0%nat ->
  unlinked_before_response p (t1 ++ t2) = unlinked_before_response p t2.
Proof.
  induction t1 as [| e t1 IH]; simpl; [reflexivity |].
  destruct e; simpl; try discriminate; try exact IH.
  destruct (p0 =? p)%string; simpl; [discriminate | exact IH].
Qed.

Lemma responded_before_unlink_app p t1 t2 :
  responses t1 = [] -> unlinks p t1 = 0%nat ->
  responded_before_unlink p (t1 ++ t2) = responded_before_unlink p t2.
Proof.
  induction t1 as [| e t1 IH]; simpl; [reflexivity |].
  destruct e; simpl; try discriminate; try exact IH.
  destruct (p0 =? p)%string; simpl; [discriminate | exact IH].
Qed.

Section Staged.
Variables (env : Env) (req : Request) (d : gset string).
Variables (files : list (string * FieldValue)) (f : File).
Hypothesis Hpost : method req = "POST".
Hypothesis Huser : falsy (userId req) = false.
Hypothesis Htoken : falsy (token req) = false.
Hypothesis Hdir : tempUploadDir env ∈ d \/ mkdirError env = None.
Hypothesis Hup : upload req = ParseDone files.
Hypothesis Hfile : assoc "eventLogFile" files = Some (Single f).
Hypothesis Hpath : falsy (Some (filepath f)) = false.

Lemma serve_staged :
  serve env req d = on_file env (token req) f (parsed_world env req d).
Proof.
  rewrite serve_parsed by assumption.
  unfold on_parsed. rewrite Hup, Hfile, Hpath. reflexivity.
Qed.

Lemma staged_on_disk : filepath f ∈ disk (parsed_world env req d).
Proof.
  simpl. apply elem_of_union. left. apply elem_of_list_to_set.
  rewrite Hup. exact (single_file_staged files f Hfile).
Qed.

(** C1, amended.  For every authenticated POST whose upload parses to one
    staged file under [eventLogFile], whichever way the request ends
    (success, validation rejection, backend error status, transport failure,
    configuration error): [fs.unlinkSync] is called on the staged path exactly
    once, the path is gone from the disk when the handler is done, and exactly
    one response is sent.  The unlink comes before the response on validation
    rejection and configuration error; on the three relay paths the response
    is sent in the [try] or [catch] block and the unlink follows in
    [finally]. *)
Theorem staged_file_unlinked_once :
  let w := snd (serve env req d) in
  unlinks (filepath f) (trace w) = 1%nat
  /\ (filepath f ∉ disk w)
  /\ length (responses (trace w)) = 1%nat
  /\ (if (invalid_file_type f || falsy (NEXT_PUBLIC_BACKEND_API_URL env))
      then unlinked_before_response (filepath f) (trace w) = true
      else responded_before_unlink (filepath f) (trace w) = true).
Proof.
  assert (Hshape : exists evs,
    serve env req d =
      (Normal tt, {| disk := disk (parsed_world env req d) ∖ {[ filepath f ]};
                     trace := entry env d ++ evs |})
    /\ unlinks (filepath f) evs = 1%nat
    /\ length (responses evs) = 1%nat
    /\ (if (invalid_file_type f || falsy (NEXT_PUBLIC_BACKEND_API_URL env))
        then unlinked_before_response (filepath f) evs = true
        else responded_before_unlink (filepath f) evs = true)).
  { rewrite serve_staged.
    pose proof staged_on_disk as Hd.
    destruct (invalid_file_type f) eqn:Hgood.
    { eexists. split; [apply on_file_invalid; assumption |].
      simpl. rewrite String.eqb_refl. auto. }
    destruct (falsy (NEXT_PUBLIC_BACKEND_API_URL env)) eqn:Hurl.
    { eexists. split; [apply on_file_unconfigured; assumption |].
      simpl. rewrite String.eqb_refl. auto. }
    destruct (backend env) as [cause | status [v | cause]] eqn:Hb.
    - eexists. split; [eapply on_file_fetch_failed; eassumption |].
      simpl. rewrite String.eqb_refl. auto.
    - destruct (ok status) eqn:Hok.
      + eexists. split; [eapply on_file_ok; eassumption |].
        simpl. rewrite String.eqb_refl. auto.
      + destruct (null_or_not v) as [-> | Hv].
        * eexists. split; [eapply on_file_not_ok_null; eassumption |].
          simpl. rewrite String.eqb_refl. auto.
        * eexists. split; [eapply on_file_not_ok; eassumption |].
          simpl. rewrite String.eqb_refl. auto.
    - eexists. split; [eapply on_file_not_json; eassumption |].
      simpl. rewrite String.eqb_refl. auto. }
  destruct Hshape as (evs & -> & Hone & Hresp & Horder). cbn [snd trace disk].
  rewrite unlinks_app, responses_app, length_app, unlinks_entry, responses_entry.
  repeat split; try assumption.
  - intros Hin. apply elem_of_difference in Hin as [_ Hn].
    apply Hn. by apply elem_of_singleton.
  - destruct (_ || _).
    + rewrite unlinked_before_response_app;
        auto using responses_entry, unlinks_entry.
    + rewrite responded_before_unlink_app;
        auto using responses_entry, unlinks_entry.
Qed.

(** C3, amended.  The type check lets a file through if and only if its
    declared content type is present and non-empty and either the lower-cased
    extension of its name is one of [.csv], [.xes], [.xlsx] or the content type
    is in the MIME allow-list; a file without a content type is rejected
    whatever its extension.  A rejected file is answered with 400 and a message
    ending in the content type, or in the extension when there is no content
    type, and nothing is sent to the backend; an accepted file is posted to the
    configured backend. *)
Theorem file_type_validation :
  let w := snd (serve env req d) in
  (invalid_file_type f = false <->
     exists m, mimetype f = Some m /\ m <> ""
               /\ (fileExt f ∈ allowedExtensions \/ m ∈ allowedMimeTypes))
  /\ (invalid_file_type f = true ->
        responses (trace w) =
          [(400, message_only (invalid_type_message
                               +:+ or_else (mimetype f) (fileExt f)))]
        /\ never backend_call (trace w) = true)
  /\ (invalid_file_type f = false ->
        falsy (NEXT_PUBLIC_BACKEND_API_URL env) = false ->
        the_fetch env (token req) f ∈ trace w).
Proof.
  cbn zeta. split; [apply accepted_iff |]. split.
  - intros Hbad. rewrite serve_staged.
    rewrite on_file_invalid by auto using staged_on_disk.
    cbn [snd trace parsed_world]. rewrite responses_app, never_app, responses_entry, never_backend_entry.
    split; reflexivity.
  - intros Hgood Hurl. rewrite serve_staged.
    pose proof staged_on_disk as Hd.
    assert (Hin : forall evs, the_fetch env (token req) f
                    ∈ entry env d ++ ReadFileSync (filepath f)
                        :: the_fetch env (token req) f :: evs).
    { intros evs. apply elem_of_app. right. apply elem_of_cons. right.
      apply elem_of_cons. by left. }
    destruct (backend env) as [cause | status [v | cause]] eqn:Hb.
    + erewrite on_file_fetch_failed by eassumption. apply Hin.
    + destruct (ok status) eqn:Hok.
      * erewrite on_file_ok by eassumption. apply Hin.
      * destruct (null_or_not v) as [-> | Hv].
        -- erewrite on_file_not_ok_null by eassumption. apply Hin.
        -- erewrite on_file_not_ok by eassumption. apply Hin.
    + erewrite on_file_not_json by eassumption. apply Hin.
Qed.
End Staged.

(** ** Requests that reach the backend *)

Lemma envelope_success v :
  own (envelope v) "success" = Some (default (JBool false) (own v "success")).
Proof. unfold envelope. destruct (own v "success"); reflexivity. Qed.

Lemma envelope_message v :
  own (envelope v) "message" =
    if truthy (own v "message") then own v "message"
    else Some (JStr backend_error_message).
Proof.
  unfold envelope.
  destruct (own v "success"); simpl;
    destruct (truthy (own v "message")) eqn:Ht; try reflexivity;
    destruct (own v "message"); (discriminate Ht || reflexivity).
Qed.

Lemma envelope_data v : own (envelope v) "data" = own v "data".
Proof.
  unfold envelope.
  destruct (own v "success"); simpl;
    destruct (truthy (own v "message")) eqn:Ht;
    try (destruct (own v "message"); [| discriminate Ht]); simpl;
    destruct (own v "data"); reflexivity.
Qed.

Section Relayed.
Variables (env : Env) (req : Request) (d : gset string).
Variables (files : list (string * FieldValue)) (f : File).
Hypothesis Hpost : method req = "POST".
Hypothesis Huser : falsy (userId req) = false.
Hypothesis Htoken : falsy (token req) = false.
Hypothesis Hdir : tempUploadDir env ∈ d \/ mkdirError env = None.
Hypothesis Hup : upload req = ParseDone files.
Hypothesis Hfile : assoc "eventLogFile" files = Some (Single f).
Hypothesis Hpath : falsy (Some (filepath f)) = false.
Hypothesis Hgood : invalid_file_type f = false.
Hypothesis Hurl : falsy (NEXT_PUBLIC_BACKEND_API_URL env) = false.

Lemma serve_relayed :
  serve env req d = on_file env (token req) f (parsed_world env req d)
  /\ filepath f ∈ disk (parsed_world env req d).
Proof.
  split; [eapply serve_staged | eapply staged_on_disk]; eassumption.
Qed.

Lemma responses_not_ok status v :
  backend env = Response status (Json v) -> ok status = false -> v <> JNull ->
  responses (trace (snd (serve env req d))) = [(status, envelope v)].
Proof.
  intros Hb Hok Hv. destruct serve_relayed as [Hs Hd].
  rewrite Hs. erewrite on_file_not_ok by eassumption.
  cbn [snd trace parsed_world]. rewrite responses_app, responses_entry.
  reflexivity.
Qed.

(** C4, amended.  For every backend reply whose status is in 200..299, the
    gateway answers 200 with the parsed body of the reply as it is, whether or
    not the body has a [data] field with [processGraph] and [llmInsights]:
    nothing is checked, nothing is reclassified, nothing is added. *)
Theorem ok_reply_forwarded_verbatim status v :
  backend env = Response status (Json v) -> ok status = true ->
  responses (trace (snd (serve env req d))) = [(200, v)].
Proof.
  intros Hb Hok. destruct serve_relayed as [Hs Hd].
  rewrite Hs. erewrite on_file_ok by eassumption.
  cbn [snd trace parsed_world]. rewrite responses_app, responses_entry.
  reflexivity.
Qed.

(** C6, amended.  For every backend reply whose status is outside 200..299
    and whose body is not [null], the gateway answers with that same status,
    with the reply's [success] whenever the reply has one, with the reply's
    [message] whenever it is present and truthy (an empty message is replaced),
    and with the reply's [data] unchanged, present or absent. *)
Theorem failed_reply_forwarded status v :
  backend env = Response status (Json v) -> ok status = false -> v <> JNull ->
  exists body,
    responses (trace (snd (serve env req d))) = [(status, body)]
    /\ (forall s, own v "success" = Some s -> own body "success" = Some s)
    /\ (forall m, own v "message" = Some m -> truthy (Some m) = true ->
                  own body "message" = Some m)
    /\ own body "data" = own v "data".
Proof.
  intros Hb Hok Hv. exists (envelope v). split; [apply responses_not_ok; assumption |].
  rewrite envelope_success, envelope_message, envelope_data.
  repeat split.
  - intros s ->. reflexivity.
  - intros m -> ->. reflexivity.
Qed.

(** X27.  For every backend reply whose status is outside 200..299 and whose
    body is any JSON value but [null] (object, array, string, number or
    boolean): the envelope sent
    back under that status always has a [success] and a [message]; [success]
    is [false] when the reply omits it, and [message] is
    ['Error processing file with backend.'] when the reply omits it. *)
Theorem failed_reply_defaults status v :
  backend env = Response status (Json v) -> ok status = false -> v <> JNull ->
  exists body,
    responses (trace (snd (serve env req d))) = [(status, body)]
    /\ is_Some (own body "success")
    /\ is_Some (own body "message")
    /\ (own v "success" = None -> own body "success" = Some (JBool false))
    /\ (own v "message" = None ->
        own body "message" = Some (JStr backend_error_message)).
Proof.
  intros Hb Hok Hv. exists (envelope v). split; [apply responses_not_ok; assumption |].
  rewrite envelope_success, envelope_message.
  repeat split.
  - eauto.
  - destruct (truthy (own v "message")) eqn:Ht; [| eauto].
    destruct (own v "message"); [eauto | discriminate Ht].
  - intros ->. reflexivity.
  - intros ->. reflexivity.
Qed.

(** C8, amended.  When the relay fails at the connection level ([fetch]
    rejects, or the body of the response is not JSON), the gateway answers 502
    with ['Bad Gateway: Could not connect to backend service. '] followed by
    the cause, and the staged file is unlinked exactly once and is gone when
    the handler is done; the unlink happens in [finally], after the response
    has been sent from the [catch] block. *)
Theorem transport_failure_is_502 cause :
  backend env = FetchFailed cause
  \/ (exists status, backend env = Response status (NotJson cause)) ->
  responses (trace (snd (serve env req d))) = [(502, message_only (bad_gateway_message +:+ cause))]
  /\ unlinks (filepath f) (trace (snd (serve env req d))) = 1%nat
  /\ (filepath f ∉ disk (snd (serve env req d)))
  /\ responded_before_unlink (filepath f) (trace (snd (serve env req d))) = true.
Proof.
  intros Hb. destruct serve_relayed as [Hs Hd]. rewrite Hs.
  destruct Hb as [Hb | [status Hb]];
    [ erewrite on_file_fetch_failed by eassumption
    | erewrite on_file_not_json by eassumption ];
    cbn [snd trace disk parsed_world];
    rewrite responses_app, unlinks_app, responses_entry, unlinks_entry,
      responded_before_unlink_app by auto using responses_entry, unlinks_entry;
    simpl; rewrite String.eqb_refl;
    (repeat split; try reflexivity);
    intros Hin; apply elem_of_difference in Hin as [_ Hn];
    apply Hn; by apply elem_of_singleton.
Qed.
End Relayed.

(** ** Every way out of the handler *)

Lemma append_not_empty (a b : string) : a <> "" -> a +:+ b <> "".
Proof. destruct a; [contradiction | discriminate]. Qed.

Lemma serve_cases env req d :
  (exists st m,
     responses (trace (snd (serve env req d))) = [(st, message_only m)]
     /\ m <> "" /\ 400 <= st)
  \/ (exists files f status v,
        method req = "POST"
        /\ falsy (userId req) = false
        /\ falsy (token req) = false
        /\ (tempUploadDir env ∈ d \/ mkdirError env = None)
        /\ upload req = ParseDone files
        /\ assoc "eventLogFile" files = Some (Single f)
        /\ falsy (Some (filepath f)) = false
        /\ invalid_file_type f = false
        /\ falsy (NEXT_PUBLIC_BACKEND_API_URL env) = false
        /\ backend env = Response status (Json v)
        /\ (ok status = false -> v <> JNull)).
Proof.
  destruct (String.eqb_spec (method req) "POST") as [Hpost | Hpost];
    [| left; rewrite serve_not_post by assumption; do 2 eexists; done].
  destruct (falsy (userId req)) eqn:Huser;
    [left; rewrite serve_no_user by assumption; do 2 eexists; done |].
  destruct (falsy (token req)) eqn:Htoken;
    [left; rewrite serve_no_token by assumption; do 2 eexists; done |].
  assert (Hdir : (tempUploadDir env ∈ d \/ mkdirError env = None)
                 \/ ((tempUploadDir env ∉ d) /\ exists e, mkdirError env = Some e)).
  { destruct (decide (tempUploadDir env ∈ d)); [by left; left |].
    destruct (mkdirError env); [right; eauto | by left; right]. }
  destruct Hdir as [Hdir | [Hnin [e He]]];
    [| left; erewrite serve_no_dir by eassumption; do 2 eexists; done].
  destruct (upload req) as [message | files] eqn:Hup.
  { left. erewrite serve_parse_error by eassumption.
    cbn [snd trace]. rewrite responses_app, responses_entry.
    do 2 eexists. split; [reflexivity |]. split; [| done].
    by apply append_not_empty. }
  assert (Hone : (exists f, assoc "eventLogFile" files = Some (Single f)
                            /\ falsy (Some (filepath f)) = false)
                 \/ (forall f, assoc "eventLogFile" files = Some (Single f) ->
                               falsy (Some (filepath f)) = true)).
  { destruct (assoc "eventLogFile" files) as [[f | fs] |]; [| by right | by right].
    destruct (falsy (Some (filepath f))) eqn:Hp; [right | left; eauto].
    by intros ? [= <-]. }
  destruct Hone as [(f & Hfile & Hpath) | Hnone];
    [| left; erewrite serve_no_single_file by eassumption;
       cbn [snd trace]; rewrite responses_app, responses_entry;
       do 2 eexists; done].
  pose proof (serve_staged env req d files f Hpost Huser Htoken Hdir Hup Hfile Hpath) as Hs.
  pose proof (staged_on_disk env req d files f Hup Hfile) as Hd.
  rewrite Hs.
  destruct (invalid_file_type f) eqn:Hgood.
  { left. rewrite on_file_invalid by assumption.
    cbn [snd trace parsed_world]. rewrite responses_app, responses_entry.
    do 2 eexists. split; [reflexivity |]. split; [| done].
    by apply append_not_empty. }
  destruct (falsy (NEXT_PUBLIC_BACKEND_API_URL env)) eqn:Hurl.
  { left. rewrite on_file_unconfigured by assumption.
    cbn [snd trace parsed_world]. rewrite responses_app, responses_entry.
    do 2 eexists. done. }
  destruct (backend env) as [cause | status [v | cause]] eqn:Hb.
  - left. erewrite on_file_fetch_failed by eassumption.
    cbn [snd trace parsed_world]. rewrite responses_app, responses_entry.
    do 2 eexists. split; [reflexivity |]. split; [| done].
    by apply append_not_empty.
  - destruct (ok status) eqn:Hok.
    { right. exists files, f, status, v. rewrite Hok. repeat split; done. }
    destruct (null_or_not v) as [-> | Hv].
    { left. erewrite on_file_not_ok_null by eassumption.
      cbn [snd trace parsed_world]. rewrite responses_app, responses_entry.
      do 2 eexists. split; [reflexivity |]. split; [| done].
      by apply append_not_empty. }
    right. exists files, f, status, v. repeat split; done.
  - left. erewrite on_file_not_json by eassumption.
    cbn [snd trace parsed_world]. rewrite responses_app, responses_entry.
    do 2 eexists. split; [reflexivity |]. split; [| done].
    by apply append_not_empty.
Qed.

(** C5, amended.  For every request that ends in one of the gateway's own
    failure classes (method not allowed, unauthenticated, no token, storage,
    malformed upload, no single file, invalid file type, configuration,
    transport failure), the response has a status of 400 or more and the JSON
    body [{ message }] with a non-empty message and no [success] field. *)
Theorem gateway_failures_carry_message_only env req d :
  gateway_failure env req d ->
  exists st m,
    responses (trace (snd (serve env req d))) = [(st, message_only m)]
    /\ m <> ""
    /\ own (message_only m) "success" = None
    /\ 400 <= st.
Proof.
  intros Hfail.
  destruct (serve_cases env req d)
    as [(st & m & Hr & Hm & Hst)
       | (files & f & status & v & Hpost & Huser & Htoken & Hdir & Hup
          & Hfile & Hpath & Hgood & Hurl & Hb & _)].
  { exists st, m. repeat split; assumption. }
  exfalso. destruct Hfail as [H | H | H | e Hnin He | message H | files' H Hnone
                              | files' f' H Hfile' Hbad | H | cause H | status' cause H];
    try congruence.
  - destruct Hdir; [contradiction | congruence].
  - assert (files' = files) as -> by congruence.
    rewrite (Hnone f Hfile) in Hpath. discriminate.
Qed.

(** C9.  For every request whose method is not POST the handler sets the
    [Allow] header to [POST], answers 405 with the body
    [{ message: 'Method Not Allowed' }] and does nothing else: no
    authentication call, no directory test or creation, no parsing or staging,
    no call to the backend; the disk is as it was. *)
Theorem non_post_is_405 env req d :
  method req <> "POST" ->
  let w := snd (serve env req d) in
  trace w = [SetHeader "Allow" ["POST"]; Respond 405 (message_only "Method Not Allowed")]
  /\ never authentication (trace w) = true
  /\ never file_handling (trace w) = true
  /\ never backend_call (trace w) = true
  /\ disk w = d.
Proof.
  intros H. rewrite serve_not_post by assumption. repeat split.
Qed.

(** C2, amended.  For every POST whose caller has no user id, or has one but
    no token, the gateway answers 401 with a message and never tests or
    creates the upload directory, never parses the body, never stages or
    touches a file and never calls the backend; the disk is as it was. *)
Theorem unauthenticated_post_is_401 env req d :
  method req = "POST" ->
  falsy (userId req) = true \/ falsy (token req) = true ->
  let w := snd (serve env req d) in
  (exists m, responses (trace w) = [(401, message_only m)])
  /\ never file_handling (trace w) = true
  /\ never backend_call (trace w) = true
  /\ disk w = d.
Proof.
  intros Hpost Hauth.
  destruct (falsy (userId req)) eqn:Huser.
  - rewrite serve_no_user by assumption. repeat split. eexists. reflexivity.
  - destruct Hauth as [Habs | Htoken]; [discriminate |].
    rewrite serve_no_token by assumption. repeat split. eexists. reflexivity.
Qed.

(** C7, amended.  For every authenticated POST whose multipart body
    formidable fails to parse (the size ceiling included), the gateway answers
    500 with the message ['File upload failed: '] followed by the parser's
    message. *)
Theorem parse_error_is_500 env req d message :
  method req = "POST" ->
  falsy (userId req) = false ->
  falsy (token req) = false ->
  tempUploadDir env ∈ d \/ mkdirError env = None ->
  upload req = ParseError message ->
  responses (trace (snd (serve env req d))) =
    [(500, message_only ("File upload failed: " +:+ message))].
Proof.
  intros Hpost Huser Htoken Hdir Hup.
  erewrite serve_parse_error by eassumption.
  cbn [snd trace]. rewrite responses_app, responses_entry. reflexivity.
Qed.

(** ** The scenarios, run *)

(** Against C1 as stated: on the success path the 200 goes out before the
    staged file is unlinked; and when two files arrive under [eventLogFile]
    the 400 goes out with no unlink at all and the files stay on disk. *)
Lemma cleanup_not_before_every_response :
  (let w := snd (serve (server (Response 200 (Json ok_without_data)))
                       (post (one orders_csv)) ∅) in
   responses (trace w) = [(200, ok_without_data)]
   /\ unlinked_before_response (filepath orders_csv) (trace w) = false)
  /\ (let w := snd (serve (server refused)
                         (post two_files)
                         ∅) in
      responses (trace w) = [(400, message_only no_file_message)]
      /\ unlinks (filepath orders_csv) (trace w) = 0%nat
      /\ filepath orders_csv ∈ disk w).
Proof. vm_compute. repeat split. Qed.

(** C1 at a refused connection. *)
Lemma staged_file_unlinked_once_witness :
  let w := snd (serve (server refused) (post (one orders_csv)) ∅) in
  unlinks (filepath orders_csv) (trace w) = 1%nat
  /\ (filepath orders_csv ∉ disk w)
  /\ length (responses (trace w)) = 1%nat
  /\ responded_before_unlink (filepath orders_csv) (trace w) = true.
Proof.
  apply (staged_file_unlinked_once (server refused) (post (one orders_csv)) ∅
           [("eventLogFile", Single orders_csv)] orders_csv);
    solve [reflexivity | right; reflexivity].
Defined.

(** Against C2 as stated: a GET without identity is answered 405, not 401. *)
Lemma unauthenticated_get_is_405 :
  responses (trace (snd (serve (server refused) (anonymous "GET") ∅)))
  = [(405, message_only "Method Not Allowed")].
Proof. reflexivity. Qed.

(** C2 at a POST without identity. *)
Lemma unauthenticated_post_is_401_witness :
  let w := snd (serve (server refused) (anonymous "POST") ∅) in
  (exists m, responses (trace w) = [(401, message_only m)])
  /\ never file_handling (trace w) = true
  /\ never backend_call (trace w) = true
  /\ disk w = ∅.
Proof.
  apply (unauthenticated_post_is_401 (server refused) (anonymous "POST") ∅);
    [reflexivity | left; reflexivity].
Defined.

(** Against C3 as stated: [orders.csv] sent without a content type is
    rejected. *)
Lemma csv_without_content_type_rejected :
  fileExt untyped_csv = ".csv"
  /\ invalid_file_type untyped_csv = true
  /\ responses (trace (snd (serve (server refused) (post (one untyped_csv)) ∅)))
     = [(400, message_only
                "Invalid file type. Please upload a .csv, .xes, or .xlsx file. Received: .csv")].
Proof. vm_compute. repeat split. Qed.

(** C3 at [report.pdf] (scenario C). *)
Lemma file_type_validation_witness :
  let w := snd (serve (server refused) (post (one report_pdf)) ∅) in
  (invalid_file_type report_pdf = false <->
     exists m, mimetype report_pdf = Some m /\ m <> ""
               /\ (fileExt report_pdf ∈ allowedExtensions \/ m ∈ allowedMimeTypes))
  /\ (invalid_file_type report_pdf = true ->
        responses (trace w) =
          [(400, message_only (invalid_type_message
                               +:+ or_else (mimetype report_pdf) (fileExt report_pdf)))]
        /\ never backend_call (trace w) = true)
  /\ (invalid_file_type report_pdf = false ->
        falsy (NEXT_PUBLIC_BACKEND_API_URL (server refused)) = false ->
        the_fetch (server refused) (token (post (one report_pdf))) report_pdf ∈ trace w).
Proof.
  apply (file_type_validation (server refused) (post (one report_pdf)) ∅
           [("eventLogFile", Single report_pdf)] report_pdf);
    solve [reflexivity | right; reflexivity].
Defined.

(** Against C4 as stated: a 200 reply without [data] is passed on with 200. *)
Lemma ok_reply_without_data_forwarded :
  own ok_without_data "data" = None
  /\ responses (trace (snd (serve (server (Response 200 (Json ok_without_data)))
                                  (post (one orders_csv)) ∅)))
     = [(200, ok_without_data)].
Proof. vm_compute. repeat split. Qed.

(** C4 at a 207 reply that has nothing but partial [data]. *)
Lemma ok_reply_forwarded_verbatim_witness :
  responses (trace (snd (serve (server (Response 207 (Json bare_reply)))
                               (post (one orders_csv)) ∅)))
  = [(200, bare_reply)].
Proof.
  apply (ok_reply_forwarded_verbatim (server (Response 207 (Json bare_reply)))
           (post (one orders_csv)) ∅ [("eventLogFile", Single orders_csv)] orders_csv)
    with (status := 207);
    solve [reflexivity | right; reflexivity].
Defined.

(** Against C5 as stated: the body of the 401 has no [success]. *)
Lemma unauthorized_body_has_no_success :
  exists body,
    responses (trace (snd (serve (server refused) (anonymous "POST") ∅))) = [(401, body)]
    /\ own body "success" = None.
Proof. eexists. split; reflexivity. Qed.

(** C5 at a refused connection. *)
Lemma gateway_failures_carry_message_only_witness :
  exists st m,
    responses (trace (snd (serve (server refused) (post (one orders_csv)) ∅)))
    = [(st, message_only m)]
    /\ m <> ""
    /\ own (message_only m) "success" = None
    /\ 400 <= st.
Proof.
  apply (gateway_failures_carry_message_only (server refused) (post (one orders_csv)) ∅).
  apply (TransportFailure _ _ _ "connect ECONNREFUSED 127.0.0.1:5000"). reflexivity.
Defined.

(** Against C6 as stated: the backend's empty [message] is not forwarded. *)
Lemma empty_backend_message_replaced :
  exists body,
    responses (trace (snd (serve (server (Response 500 (Json silent_reply)))
                                 (post (one orders_csv)) ∅)))
    = [(500, body)]
    /\ own silent_reply "message" = Some (JStr "")
    /\ own body "message" = Some (JStr "Error processing file with backend.").
Proof. eexists. vm_compute. repeat split. Qed.

(** C6 at scenario B. *)
Lemma failed_reply_forwarded_witness :
  exists body,
    responses (trace (snd (serve (server (Response 500 (Json timeout_reply)))
                                 (post (one orders_csv)) ∅)))
    = [(500, body)]
    /\ (forall s, own timeout_reply "success" = Some s -> own body "success" = Some s)
    /\ (forall m, own timeout_reply "message" = Some m -> truthy (Some m) = true ->
                  own body "message" = Some m)
    /\ own body "data" = own timeout_reply "data".
Proof.
  apply (failed_reply_forwarded (server (Response 500 (Json timeout_reply)))
           (post (one orders_csv)) ∅ [("eventLogFile", Single orders_csv)] orders_csv);
    solve [reflexivity | right; reflexivity | discriminate].
Defined.

(** Against C7 as stated: an upload over the size ceiling is answered 500. *)
Lemma parse_error_is_not_400 :
  responses (trace (snd (serve (server refused)
                               (post oversized) ∅)))
  = [(500, message_only
           "File upload failed: options.maxFileSize (104857600 bytes) exceeded")].
Proof. reflexivity. Qed.

(** C7 at the same upload. *)
Lemma parse_error_is_500_witness :
  responses (trace (snd (serve (server refused)
                               (post oversized) ∅)))
  = [(500, message_only
           ("File upload failed: " +:+ "options.maxFileSize (104857600 bytes) exceeded"))].
Proof.
  apply (parse_error_is_500 (server refused) (post oversized) ∅);
    solve [reflexivity | right; reflexivity].
Defined.

(** Against C8 as stated (scenario E): the 502 is sent, then the file is
    unlinked. *)
Lemma transport_failure_responds_before_unlink :
  let w := snd (serve (server refused) (post (one orders_csv)) ∅) in
  trace w =
    [GetAuth; GetToken; ExistsSync "/srv/app/tmp/uploads"; MkdirSync "/srv/app/tmp/uploads";
     FormParse "/srv/app/tmp/uploads" true 104857600;
     ReadFileSync "/srv/app/tmp/uploads/3f9a1c.csv";
     Fetch "http://backend:5000/api/process" "POST" "Bearer eyJhbGciOi" "file"
           "orders.csv" "text/csv";
     ConsoleError "Error proxying request to backend:";
     Respond 502 (message_only
       "Bad Gateway: Could not connect to backend service. connect ECONNREFUSED 127.0.0.1:5000");
     UnlinkSync "/srv/app/tmp/uploads/3f9a1c.csv"]
  /\ unlinked_before_response (filepath orders_csv) (trace w) = false.
Proof. vm_compute. repeat split. Qed.

(** C8 at scenario E. *)
Lemma transport_failure_is_502_witness :
  let w := snd (serve (server refused) (post (one orders_csv)) ∅) in
  responses (trace w)
  = [(502, message_only (bad_gateway_message +:+ "connect ECONNREFUSED 127.0.0.1:5000"))]
  /\ unlinks (filepath orders_csv) (trace w) = 1%nat
  /\ (filepath orders_csv ∉ disk w)
  /\ responded_before_unlink (filepath orders_csv) (trace w) = true.
Proof.
  apply (transport_failure_is_502 (server refused) (post (one orders_csv)) ∅
           [("eventLogFile", Single orders_csv)] orders_csv);
    solve [reflexivity | right; reflexivity | left; reflexivity].
Defined.

(** C9 at a GET. *)
Lemma non_post_is_405_witness :
  let w := snd (serve (server refused) (anonymous "GET") ∅) in
  trace w = [SetHeader "Allow" ["POST"]; Respond 405 (message_only "Method Not Allowed")]
  /\ never authentication (trace w) = true
  /\ never file_handling (trace w) = true
  /\ never backend_call (trace w) = true
  /\ disk w = ∅.
Proof.
  apply (non_post_is_405 (server refused) (anonymous "GET") ∅). discriminate.
Defined.

(** C10, where it fails: the backend answers 500 with the JSON body [null],
    a reply with neither [success] nor [message].  Reading [success] off
    [null] throws, so the request ends in the [catch] block: the answer is
    502, not 500, its body has no [success], and its message is not
    ['Error processing file with backend.']. *)
Lemma null_failed_reply_gets_no_defaults :
  let body := message_only (bad_gateway_message
                            +:+ "Cannot read properties of null (reading 'success')") in
  responses (trace (snd (serve (server (Response 500 (Json JNull)))
                               (post (one orders_csv)) ∅)))
  = [(502, body)]
  /\ ok 500 = false
  /\ own JNull "success" = None
  /\ own JNull "message" = None
  /\ own body "success" = None
  /\ own body "message" <> Some (JStr backend_error_message).
Proof. vm_compute. repeat split. discriminate. Qed.

(** X27 at a 422 reply that has neither [success] nor [message]. *)
Lemma failed_reply_defaults_witness :
  exists body,
    responses (trace (snd (serve (server (Response 422 (Json bare_reply)))
                                 (post (one orders_csv)) ∅)))
    = [(422, body)]
    /\ is_Some (own body "success")
    /\ is_Some (own body "message")
    /\ (own bare_reply "success" = None -> own body "success" = Some (JBool false))
    /\ (own bare_reply "message" = None ->
        own body "message" = Some (JStr backend_error_message)).
Proof.
  apply (failed_reply_defaults (server (Response 422 (Json bare_reply)))
           (post (one orders_csv)) ∅ [("eventLogFile", Single orders_csv)] orders_csv);
    solve [reflexivity | right; reflexivity | discriminate].
Defined.

(** ** [path.extname] and [toLowerCase] on file names *)

Example extname_csv : Path.extname "log.CSV" = ".CSV".
Proof. reflexivity. Qed.
Example extname_none : Path.extname "README" = "".
Proof. reflexivity. Qed.
Example extname_hidden : Path.extname ".bashrc" = "".
Proof. reflexivity. Qed.
Example extname_dir : Path.extname "a.d/file" = "".
Proof. reflexivity. Qed.
Example extname_two : Path.extname "x.tar.gz" = ".gz".
Proof. reflexivity. Qed.
Example extname_dots : Path.extname ".." = "".
Proof. reflexivity. Qed.
Example lower_ext : Js.toLowerCase ".XeS" = ".xes".
Proof. reflexivity. Qed.
(** * Further properties of [handler] *)

Import Exits.

Lemma serve_exit env req d :
  exists w, serve env req d = (Normal tt, w) /\ exit env req d w.
Proof.
  destruct (String.eqb_spec (method req) "POST") as [Hpost | Hpost];
    [| eexists; split; [apply serve_not_post; assumption | by constructor]].
  destruct (falsy (userId req)) eqn:Huser;
    [eexists; split; [apply serve_no_user; assumption | by constructor] |].
  destruct (falsy (token req)) eqn:Htoken;
    [eexists; split; [apply serve_no_token; assumption | by constructor] |].
  assert (Hdir : (tempUploadDir env ∈ d \/ mkdirError env = None)
                 \/ ((tempUploadDir env ∉ d) /\ exists e, mkdirError env = Some e)).
  { destruct (decide (tempUploadDir env ∈ d)); [by left; left |].
    destruct (mkdirError env); [right; eauto | by left; right]. }
  destruct Hdir as [Hdir | [Hnin [e He]]];
    [| eexists; split; [eapply serve_no_dir; eassumption | by econstructor]].
  assert (Hparsing : parsing env req d) by (repeat split; assumption).
  destruct (upload req) as [message | files] eqn:Hup.
  { eexists. split; [eapply serve_parse_error; eassumption | by constructor]. }
  assert (Hone : (exists f, assoc "eventLogFile" files = Some (Single f)
                            /\ falsy (Some (filepath f)) = false)
                 \/ (forall f, assoc "eventLogFile" files = Some (Single f) ->
                               falsy (Some (filepath f)) = true)).
  { destruct (assoc "eventLogFile" files) as [[f | fs] |]; [| by right | by right].
    destruct (falsy (Some (filepath f))) eqn:Hp; [right | left; eauto].
    by intros ? [= <-]. }
  destruct Hone as [(f & Hfile & Hpath) | Hnone];
    [| eexists; split; [eapply serve_no_single_file; eassumption
                       | by econstructor]].
  assert (Hstaging : staging env req d files f) by (repeat split; assumption).
  pose proof (serve_staged env req d files f Hpost Huser Htoken Hdir Hup Hfile Hpath) as Hs.
  pose proof (staged_on_disk env req d files f Hup Hfile) as Hd.
  rewrite Hs.
  destruct (invalid_file_type f) eqn:Hgood.
  { eexists. split; [apply on_file_invalid; assumption | by econstructor]. }
  destruct (falsy (NEXT_PUBLIC_BACKEND_API_URL env)) eqn:Hurl.
  { eexists. split; [apply on_file_unconfigured; assumption | by econstructor]. }
  assert (Hrelaying : relaying env req d files f) by (repeat split; assumption).
  destruct (backend env) as [cause | status [v | cause]] eqn:Hb.
  - eexists. split; [eapply on_file_fetch_failed; eassumption | by econstructor].
  - destruct (ok status) eqn:Hok.
    { eexists. split; [eapply on_file_ok; eassumption | by econstructor]. }
    destruct (null_or_not v) as [-> | Hv].
    { eexists. split; [eapply on_file_not_ok_null; eassumption | by econstructor]. }
    eexists. split; [eapply on_file_not_ok; eassumption | by econstructor].
  - eexists. split; [eapply on_file_not_json; eassumption | by econstructor].
Qed.

Lemma fetches_app t1 t2 : fetches (t1 ++ t2) = (fetches t1 + fetches t2)%nat.
Proof. induction t1 as [| e t1 IH]; simpl; [reflexivity | rewrite IH; lia]. Qed.

Lemma fetches_entry env d : fetches (entry env d) = 0%nat.
Proof. unfold entry. destruct (bool_decide _); reflexivity. Qed.

Lemma unlinked_app t1 t2 : unlinked (t1 ++ t2) = unlinked t1 ++ unlinked t2.
Proof. apply omap_app. Qed.

Lemma unlinked_entry env d : unlinked (entry env d) = [].
Proof. unfold entry. destruct (bool_decide _); reflexivity. Qed.

Lemma never_file_handling_prefix env d :
  never file_handling (entry env d) = false.
Proof. unfold entry. destruct (bool_decide _); reflexivity. Qed.

Lemma fetch_not_in_entry env d url m a fld fn bt :
  Fetch url m a fld fn bt ∉ entry env d.
Proof.
  unfold entry. intros Hin.
  destruct (bool_decide _); simpl in Hin;
    repeat (apply elem_of_cons in Hin as [Hin | Hin]; [discriminate |]);
    by apply elem_of_nil in Hin.
Qed.

Lemma with_dir_keeps env (d : gset string) p : p ∈ d -> p ∈ with_dir env d.
Proof.
  unfold with_dir. destruct (bool_decide _); [done |].
  intros Hin. apply elem_of_union. by right.
Qed.

Lemma parsed_world_keeps env req (d : gset string) p :
  p ∈ d -> p ∈ disk (parsed_world env req d).
Proof.
  intros Hin. simpl. apply elem_of_union. right. by apply with_dir_keeps.
Qed.

Lemma staged_in_parsed_world env req (d : gset string) p :
  p ∈ staged (upload req) -> p ∈ disk (parsed_world env req d).
Proof.
  intros Hin. simpl. apply elem_of_union. left. by apply elem_of_list_to_set.
Qed.

Lemma staging_unique env req d files f files' f' :
  staging env req d files f -> staging env req d files' f' ->
  files' = files /\ f' = f.
Proof.
  intros (_ & Hup & Hfile & _) (_ & Hup' & Hfile' & _).
  assert (files' = files) as -> by congruence.
  split; [reflexivity | congruence].
Qed.

(** Once the exit is known, the trace functions are computed on it. *)
Ltac read_trace :=
  cbn [fst snd trace disk];
  rewrite ?responses_app, ?responses_entry, ?fetches_app, ?fetches_entry,
    ?unlinked_app, ?unlinked_entry, ?never_app, ?never_backend_entry,
    ?unlinks_app, ?unlinks_entry;
  unfold the_fetch; simpl.

(** X1.  Every request gets exactly one response and no exception leaves
    the handler, whatever the request, the backend and the disk. *)
Theorem handler_answers_exactly_once env req d :
  fst (serve env req d) = Normal tt
  /\ length (responses (trace (snd (serve env req d)))) = 1%nat.
Proof.
  destruct (serve_exit env req d) as (w & -> & Hexit).
  split; [reflexivity |].
  destruct Hexit; cbn [snd trace];
    rewrite ?responses_app, ?responses_entry; reflexivity.
Qed.

(** X2.  When the upload directory is missing and cannot be created, an
    authenticated POST is answered 500 ['Server configuration error for file
    uploads.']: the body is never parsed, nothing is staged, the backend is
    not called and the disk is as it was. *)
Theorem storage_error_is_500 env req d e :
  method req = "POST" ->
  falsy (userId req) = false ->
  falsy (token req) = false ->
  tempUploadDir env ∉ d ->
  mkdirError env = Some e ->
  let w := snd (serve env req d) in
  responses (trace w) =
    [(500, message_only "Server configuration error for file uploads.")]
  /\ MkdirSync (tempUploadDir env) ∈ trace w
  /\ (forall dir keep size, FormParse dir keep size ∉ trace w)
  /\ never backend_call (trace w) = true
  /\ disk w = d.
Proof.
  intros Hpost Huser Htoken Hnin He.
  erewrite serve_no_dir by eassumption. cbn [snd trace disk].
  repeat split.
  - do 3 (apply elem_of_cons; right). apply elem_of_cons. by left.
  - intros dir keep size Hin.
    repeat (apply elem_of_cons in Hin as [Hin | Hin]; [discriminate |]).
    by apply elem_of_nil in Hin.
Qed.

(** X3.  When [eventLogFile] is absent, is an array, or has an empty path,
    the request is answered 400 and nothing is unlinked: every file formidable
    has written stays on disk, and the backend is not called. *)
Theorem rejected_upload_is_left_on_disk env req d files :
  method req = "POST" ->
  falsy (userId req) = false ->
  falsy (token req) = false ->
  tempUploadDir env ∈ d \/ mkdirError env = None ->
  upload req = ParseDone files ->
  (forall f, assoc "eventLogFile" files = Some (Single f) ->
             falsy (Some (filepath f)) = true) ->
  let w := snd (serve env req d) in
  responses (trace w) = [(400, message_only no_file_message)]
  /\ unlinked (trace w) = []
  /\ never backend_call (trace w) = true
  /\ (forall p, p ∈ staged (upload req) -> p ∈ disk w).
Proof.
  intros Hpost Huser Htoken Hdir Hup Hnone.
  erewrite serve_no_single_file by eassumption. read_trace.
  repeat split. intros p Hin. by apply staged_in_parsed_world.
Qed.

(** X4.  The handler calls [fs.unlinkSync] at most once in a request, and
    only on the path of the single file received under [eventLogFile]. *)
Theorem handler_unlinks_only_its_upload env req d :
  let w := snd (serve env req d) in
  (length (unlinked (trace w)) <= 1)%nat
  /\ (forall p, p ∈ unlinked (trace w) ->
        exists files f,
          upload req = ParseDone files
          /\ assoc "eventLogFile" files = Some (Single f)
          /\ p = filepath f).
Proof.
  destruct (serve_exit env req d) as (w & -> & Hexit).
  destruct Hexit; read_trace; (split; [lia |]); intros p Hin;
    try (by apply elem_of_nil in Hin);
    apply list_elem_of_singleton in Hin as ->;
    match goal with
    | H : staging _ _ _ ?files ?f |- _ =>
        destruct H as (_ & ? & ? & _); by exists files, f
    | H : relaying _ _ _ ?files ?f |- _ =>
        destruct H as ((_ & ? & ? & _) & _); by exists files, f
    end.
Qed.

(** X5.  Whatever was on disk before the request is still there after it,
    unless it is the path the handler unlinked. *)
Theorem handler_keeps_what_was_on_disk env req d p :
  p ∈ d ->
  p ∈ disk (snd (serve env req d)) \/ p ∈ unlinked (trace (snd (serve env req d))).
Proof.
  intros Hin.
  destruct (serve_exit env req d) as (w & -> & Hexit).
  destruct Hexit; read_trace;
    try (left; first [ assumption
                     | by apply with_dir_keeps
                     | by apply parsed_world_keeps ]);
    (destruct (decide (p = filepath f)) as [-> | Hne];
     [ right; by apply list_elem_of_singleton
     | left; apply elem_of_difference; split;
       [by apply parsed_world_keeps | by rewrite elem_of_singleton] ]).
Qed.

Lemma truthy_text o : falsy o = false -> o = Some (text o) /\ text o <> "".
Proof.
  intros H. apply falsy_false in H as (s & -> & Hs). by split.
Qed.

Lemma or_else_some s d : s <> "" -> or_else (Some s) d = s.
Proof.
  intros Hs. unfold or_else. simpl. apply String.eqb_neq in Hs. by rewrite Hs.
Qed.

Lemma accepted_has_type f :
  invalid_file_type f = false -> exists m, mimetype f = Some m /\ m <> "".
Proof.
  intros H. apply accepted_iff in H as (m & Hm & Hne & _). eauto.
Qed.

(** X6.  [fetch] is called at most once in a request (no retry), and when
    the backend is called at all the request was an authenticated POST with a
    single file of an accepted type and the backend URL was configured. *)
Theorem backend_called_once_for_a_valid_upload_only env req d :
  let t := trace (snd (serve env req d)) in
  (fetches t <= 1)%nat
  /\ (never backend_call t = false ->
        fetches t = 1%nat
        /\ method req = "POST"
        /\ falsy (userId req) = false
        /\ falsy (token req) = false
        /\ falsy (NEXT_PUBLIC_BACKEND_API_URL env) = false
        /\ exists files f,
             upload req = ParseDone files
             /\ assoc "eventLogFile" files = Some (Single f)
             /\ invalid_file_type f = false).
Proof.
  destruct (serve_exit env req d) as (w & -> & Hexit).
  destruct Hexit; read_trace; (split; [lia |]); intros Hcall;
    try discriminate Hcall;
    match goal with
    | H : relaying _ _ _ ?files ?f |- _ =>
        destruct H as (((? & ? & ? & _) & ? & ? & _) & ? & ?);
        repeat split; try assumption; by exists files, f
    end.
Qed.

Lemma blob_type_allowed m : m ∈ allowedMimeTypes -> Blob.type m = m.
Proof.
  unfold allowedMimeTypes. intros Hm.
  repeat (apply elem_of_cons in Hm as [-> | Hm]; [reflexivity |]).
  by apply elem_of_nil in Hm.
Qed.

(** X7.  Every call of the backend is a POST to the configured base URL
    followed by [/process], with [Authorization: Bearer] and the caller's
    token, the file under the field [file], named by its original name or
    [uploaded_file.csv]; the blob's type is what [Blob] makes of the declared
    content type, which is not empty (the [application/octet-stream] fallback
    is never used): its lower-cased form, or the empty string when it has a
    character outside U+0020..U+007E. *)
Theorem backend_request_shape env req d url m a field name type :
  Fetch url m a field name type ∈ trace (snd (serve env req d)) ->
  exists base tok files f,
    NEXT_PUBLIC_BACKEND_API_URL env = Some base
    /\ token req = Some tok
    /\ upload req = ParseDone files
    /\ assoc "eventLogFile" files = Some (Single f)
    /\ url = base +:+ "/process"
    /\ m = "POST"
    /\ a = "Bearer " +:+ tok
    /\ field = "file"
    /\ name = or_else (originalFilename f) "uploaded_file.csv"
    /\ exists declared,
         mimetype f = Some declared
         /\ declared <> ""
         /\ type = Blob.type declared
         /\ (type = toLowerCase declared \/ type = "").
Proof.
  destruct (serve_exit env req d) as (w & -> & Hexit).
  intros Hin.
  destruct Hexit; cbn [snd trace] in Hin;
    try (repeat (apply elem_of_cons in Hin as [Hin | Hin]; [discriminate |]);
         by apply elem_of_nil in Hin);
    apply elem_of_app in Hin as [Hin | Hin];
    try (by apply fetch_not_in_entry in Hin);
    try (repeat (apply elem_of_cons in Hin as [Hin | Hin]; [discriminate |]);
         by apply elem_of_nil in Hin);
    (apply elem_of_cons in Hin as [Hin | Hin]; [discriminate |];
     apply elem_of_cons in Hin as [Hin | Hin];
     [| repeat (apply elem_of_cons in Hin as [Hin | Hin]; [discriminate |]);
        by apply elem_of_nil in Hin ]);
    match goal with
    | H : relaying _ _ _ ?files ?f |- _ =>
        destruct H as (((_ & _ & Htok & _) & Hup & Hfile & _) & Hgood & Hurl);
        apply truthy_text in Htok as [Htok _];
        apply truthy_text in Hurl as [Hurl _];
        apply accepted_has_type in Hgood as (ct & Hct & Hne);
        unfold the_fetch in Hin; rewrite Hct, (or_else_some ct _ Hne) in Hin;
        injection Hin as -> -> -> -> -> ->;
        exists (text (NEXT_PUBLIC_BACKEND_API_URL env)), (text (token req)), files, f;
        do 9 (split; [first [assumption | reflexivity] |]);
        exists ct; do 3 (split; [first [assumption | reflexivity] |]);
        unfold Blob.type; destruct (existsb _ _); [by right | by left]
    end.
Qed.

Lemma relaying_fetches env req d files f :
  relaying env req d files f ->
  the_fetch env (token req) f ∈ trace (snd (serve env req d)).
Proof.
  intros Hrel.
  pose proof Hrel as ((Hparsing & Hup & Hfile & Hpath) & Hgood & Hurl).
  pose proof Hparsing as (Hpost & Huser & Htoken & Hdir).
  destruct (serve_exit env req d) as (w & -> & Hexit).
  assert (Hin : forall evs, the_fetch env (token req) f
                  ∈ entry env d ++ ReadFileSync (filepath f)
                      :: the_fetch env (token req) f :: evs).
  { intros evs. apply elem_of_app. right. apply elem_of_cons. right.
    apply elem_of_cons. by left. }
  destruct Hexit;
    try congruence;
    try (destruct Hdir; [contradiction | congruence]);
    try match goal with
        | H : staging _ _ _ _ _ |- _ =>
            destruct (staging_unique _ _ _ _ _ _ _ (proj1 Hrel) H) as [-> ->]
        | H : relaying _ _ _ _ _ |- _ =>
            destruct (staging_unique _ _ _ _ _ _ _ (proj1 Hrel) (proj1 H)) as [-> ->]
        end;
    try congruence; try apply Hin.
  assert (files0 = files) as -> by congruence.
  match goal with H : forall f, _ -> _ |- _ => rewrite (H f Hfile) in Hpath end.
  discriminate.
Qed.

Section Forwarding.
Variables (env : Env) (req : Request) (d : gset string).
Variables (files : list (string * FieldValue)) (f : File).
Hypothesis Hpost : method req = "POST".
Hypothesis Huser : falsy (userId req) = false.
Hypothesis Htoken : falsy (token req) = false.
Hypothesis Hdir : tempUploadDir env ∈ d \/ mkdirError env = None.
Hypothesis Hup : upload req = ParseDone files.
Hypothesis Hfile : assoc "eventLogFile" files = Some (Single f).
Hypothesis Hpath : falsy (Some (filepath f)) = false.
Hypothesis Hurl : falsy (NEXT_PUBLIC_BACKEND_API_URL env) = false.

(** X8.  A file whose declared content type is in the MIME allow-list is
    posted to the backend whatever its name. *)
Theorem allowed_content_type_is_forwarded_whatever_the_name m :
  mimetype f = Some m ->
  m ∈ allowedMimeTypes ->
  Fetch (text (NEXT_PUBLIC_BACKEND_API_URL env) +:+ "/process") "POST"
        ("Bearer " +:+ text (token req)) "file"
        (or_else (originalFilename f) "uploaded_file.csv") m
    ∈ trace (snd (serve env req d)).
Proof.
  intros Hm Hin.
  assert (Hne : m <> "").
  { unfold allowedMimeTypes in Hin.
    repeat (apply elem_of_cons in Hin as [-> | Hin]; [discriminate |]).
    by apply elem_of_nil in Hin. }
  assert (Hgood : invalid_file_type f = false).
  { apply accepted_iff. exists m. repeat split; auto. }
  assert (Hrel : relaying env req d files f) by (repeat split; assumption).
  pose proof (relaying_fetches _ _ _ _ _ Hrel) as Hf.
  unfold the_fetch in Hf.
  by rewrite Hm, (or_else_some m _ Hne), (blob_type_allowed m Hin) in Hf.
Qed.

(** X9.  A failing backend reply whose body is JSON [null] is not forwarded
    under the backend's status: reading [success] throws, the request is
    answered 502 from the [catch] block, and the staged file is unlinked. *)
Theorem null_failure_body_is_502 status :
  invalid_file_type f = false ->
  backend env = Response status (Json JNull) ->
  ok status = false ->
  let w := snd (serve env req d) in
  (exists cause,
     responses (trace w) = [(502, message_only (bad_gateway_message +:+ cause))])
  /\ unlinked (trace w) = [filepath f]
  /\ (filepath f ∉ disk w).
Proof.
  intros Hgood Hb Hok.
  pose proof (staged_on_disk env req d files f Hup Hfile) as Hd.
  rewrite (serve_staged env req d files f) by assumption.
  erewrite on_file_not_ok_null by eassumption.
  cbn [snd trace disk parsed_world]. read_trace.
  apply conj; [eexists; reflexivity |]. apply conj; [reflexivity |].
  intros Hin. apply elem_of_difference in Hin as [_ Hn].
  apply Hn. by apply elem_of_singleton.
Qed.
End Forwarding.

(** * [path.extname] on file names, and the type check *)

Import Path Names.

Lemma chars_app a b :
  list_ascii_of_string (a +:+ b) = list_ascii_of_string a ++ list_ascii_of_string b.
Proof. induction a as [| c a IH]; simpl; [reflexivity | by rewrite IH]. Qed.

Lemma chars_length s : length (list_ascii_of_string s) = String.length s.
Proof. induction s as [| c s IH]; simpl; [reflexivity | by rewrite IH]. Qed.

Lemma string_length_app a b :
  String.length (a +:+ b) = (String.length a + String.length b)%nat.
Proof. induction a as [| c a IH]; simpl; [reflexivity | by rewrite IH]. Qed.

Lemma substring_whole s : substring 0 (String.length s) s = s.
Proof. induction s as [| c s IH]; simpl; [reflexivity | by rewrite IH]. Qed.

Lemma substring_after a b n :
  substring (String.length a) n (a +:+ b) = substring 0 n b.
Proof. induction a as [| c a IH]; simpl; [reflexivity | exact IH]. Qed.

(** Characters that are neither dot nor slash, met before any dot, leave the
    scan as it is once [end] is set. *)
Lemma loop_plain l rest i st :
  Forall plain l -> startDot st = -1 -> end_ st <> -1 ->
  extname_loop (l ++ rest) i st = extname_loop rest (i - Z.of_nat (length l)) st.
Proof.
  intros Hl Hdot Hend. revert i.
  induction Hl as [| c l [Hslash Hnodot] _ IH]; intros i; simpl.
  - f_equal. lia.
  - apply Ascii.eqb_neq in Hslash, Hnodot. rewrite Hslash, Hnodot.
    apply Z.eqb_neq in Hend. rewrite Hend, Hdot. simpl.
    rewrite IH. f_equal. lia.
Qed.

(** Once a dot has been met and a character before it, the extension is
    settled, whatever comes before. *)
Lemma loop_settled l i st :
  startDot st <> -1 -> end_ st <> -1 -> matchedSlash st = false ->
  preDotState st <> 0 ->
  let r := extname_loop l i st in
  startDot r = startDot st /\ end_ r = end_ st /\ preDotState r <> 0.
Proof.
  revert i st. induction l as [| c l IH]; intros i st Hdot Hend Hslash Hpre; simpl.
  - done.
  - destruct (Ascii.eqb c "/").
    + rewrite Hslash. simpl. done.
    + pose proof Hend as Hend'. apply Z.eqb_neq in Hend'. rewrite Hend'.
      pose proof Hdot as Hdot'. apply Z.eqb_neq in Hdot'. rewrite Hdot'. simpl.
      destruct (Ascii.eqb c ".").
      * destruct (IH (i - 1)
                    (Scan (startDot st) (startPart st) (end_ st) (matchedSlash st) 1))
          as (H1 & H2 & H3); simpl; try done.
      * destruct (IH (i - 1)
                    (Scan (startDot st) (startPart st) (end_ st) (matchedSlash st) (-1)))
          as (H1 & H2 & H3); simpl; try done.
Qed.

Lemma loop_no_dot l i st :
  Forall (fun c => c <> "."%char) l -> startDot st = -1 ->
  startDot (extname_loop l i st) = -1.
Proof.
  intros Hl. revert i st.
  induction Hl as [| c l Hc _ IH]; intros i st Hdot; simpl; [exact Hdot |].
  apply Ascii.eqb_neq in Hc. rewrite Hc.
  destruct (Ascii.eqb c "/").
  - destruct (negb (matchedSlash st)); [exact Hdot | by apply IH].
  - destruct (end_ st =? -1); simpl; rewrite Hdot; simpl; by apply IH.
Qed.

(** A name without a dot has no extension. *)
Lemma extname_no_dot p :
  Forall (fun c => c <> "."%char) (list_ascii_of_string p) -> extname p = "".
Proof.
  intros Hp. unfold extname.
  rewrite loop_no_dot; [reflexivity | | reflexivity].
  apply Forall_forall. intros c Hc. apply list_elem_of_In, in_rev in Hc.
  rewrite Forall_forall in Hp. apply Hp. by apply list_elem_of_In.
Qed.

Lemma step_first c rest i :
  plain c ->
  extname_loop (c :: rest) i scan0 =
  extname_loop rest (i - 1) (Scan (-1) 0 (i + 1) false 0).
Proof.
  intros [Hs Hd]. apply Ascii.eqb_neq in Hs, Hd. simpl. by rewrite Hs, Hd.
Qed.

Lemma step_dot rest i E :
  E <> -1 ->
  extname_loop ("."%char :: rest) i (Scan (-1) 0 E false 0) =
  extname_loop rest (i - 1) (Scan i 0 E false 0).
Proof. intros HE. apply Z.eqb_neq in HE. simpl. by rewrite HE. Qed.

Lemma step_before_dot c rest i D E :
  c <> "/"%char -> D <> -1 -> E <> -1 ->
  exists pre, pre <> 0 /\
    extname_loop (c :: rest) i (Scan D 0 E false 0) =
    extname_loop rest (i - 1) (Scan D 0 E false pre).
Proof.
  intros Hc HD HE. apply Ascii.eqb_neq in Hc. apply Z.eqb_neq in HD, HE.
  simpl. rewrite Hc, HE. simpl. rewrite HD. simpl.
  destruct (Ascii.eqb c "."); [exists 1 | exists (-1)]; done.
Qed.

(** The extension of [b ++ c ++ "." ++ ext], where [c] is not a slash and
    [ext] is not empty and has neither dot nor slash, is ["." ++ ext]. *)
Lemma extname_suffix b c ext :
  c <> "/"%char -> ext <> "" -> Forall plain (list_ascii_of_string ext) ->
  extname (b +:+ String c (String "." ext)) = String "." ext.
Proof.
  intros Hc Hne Hext.
  set (p := b +:+ String c (String "." ext)).
  set (nb := Z.of_nat (String.length b)).
  set (ne := Z.of_nat (String.length ext)).
  assert (Hlen : Z.of_nat (String.length p) = nb + 2 + ne).
  { unfold p, nb, ne. rewrite string_length_app. simpl. lia. }
  assert (Hnb : 0 <= nb) by (unfold nb; lia).
  assert (Hne' : 0 < ne).
  { unfold ne. destruct ext; [done | simpl; lia]. }
  assert (Hloop :
    exists r, extname_loop (rev (list_ascii_of_string p))
                           (Z.of_nat (String.length p) - 1) scan0 = r
      /\ startDot r = nb + 1 /\ end_ r = nb + 2 + ne /\ preDotState r <> 0).
  { rewrite Hlen. unfold p. rewrite chars_app. simpl. rewrite rev_app_distr. simpl.
    rewrite <- !app_assoc. simpl.
    assert (Hrev : Forall plain (rev (list_ascii_of_string ext))).
    { apply Forall_forall. intros x Hx. apply list_elem_of_In, in_rev in Hx.
      rewrite Forall_forall in Hext. apply Hext. by apply list_elem_of_In. }
    assert (Hrlen : Z.of_nat (length (rev (list_ascii_of_string ext))) = ne).
    { unfold ne. by rewrite length_rev, chars_length. }
    destruct (rev (list_ascii_of_string ext)) as [| e0 l'] eqn:Hre.
    { simpl in Hrlen. lia. }
    apply Forall_cons in Hrev as [He0 Hl'].
    rewrite <- app_comm_cons, step_first by exact He0.
    rewrite loop_plain; [| exact Hl' | reflexivity | cbn; lia].
    rewrite step_dot by lia.
    destruct (step_before_dot c (rev (list_ascii_of_string b))
                (nb + 2 + ne - 1 - 1 - Z.of_nat (length l') - 1)
                (nb + 2 + ne - 1 - 1 - Z.of_nat (length l'))
                (nb + 2 + ne - 1 + 1))
      as (pre & Hpre & ->); [exact Hc | simpl in Hrlen; lia | lia |].
    eexists. split; [reflexivity |].
    simpl in Hrlen.
    match goal with
    | |- context [extname_loop ?l ?j ?st] =>
        pose proof (loop_settled l j st) as Hset
    end.
    cbn in Hset. destruct Hset as (H1 & H2 & H3);
      [lia | lia | reflexivity | assumption |].
    rewrite H1, H2. repeat split; solve [lia | exact H3]. }
  unfold extname. fold p.
  destruct Hloop as (r & -> & Hsd & Hen & Hpre).
  rewrite Hsd, Hen.
  replace (nb + 1 =? -1) with false by (symmetry; apply Z.eqb_neq; lia).
  replace (nb + 2 + ne =? -1) with false by (symmetry; apply Z.eqb_neq; lia).
  apply Z.eqb_neq in Hpre. rewrite Hpre.
  replace (nb + 1 =? nb + 2 + ne - 1) with false by (symmetry; apply Z.eqb_neq; lia).
  rewrite andb_false_r. simpl orb. cbv iota.
  replace (Z.to_nat (nb + 1)) with (String.length (b +:+ String c ""))
    by (rewrite string_length_app; simpl; unfold nb; lia).
  replace (Z.to_nat (nb + 2 + ne - (nb + 1))) with (String.length (String "." ext))
    by (simpl; unfold ne; lia).
  unfold p.
  replace (b +:+ String c (String "." ext)) with ((b +:+ String c "") +:+ String "." ext).
  - rewrite substring_after. apply substring_whole.
  - clear. induction b as [| x b IH]; [reflexivity |].
    change (String x ((b +:+ String c "") +:+ String "." ext)
            = String x (b +:+ String c (String "." ext))).
    by rewrite IH.
Qed.

Lemma lower_plain c : plain (lower c) -> plain c.
Proof.
  intros [Hs Hd]. split; intros ->; [apply Hs | apply Hd]; reflexivity.
Qed.

Lemma toLowerCase_plain s :
  Forall plain (list_ascii_of_string (toLowerCase s)) ->
  Forall plain (list_ascii_of_string s).
Proof.
  induction s as [| c s IH]; simpl; [done |].
  intros H. apply Forall_cons in H as [Hc Hs].
  apply Forall_cons. split; [by apply lower_plain | by apply IH].
Qed.

Lemma toLowerCase_empty s : toLowerCase s = "" -> s = "".
Proof. destruct s; [done | discriminate]. Qed.

(** The three extensions, without their dot. *)
Lemma allowed_suffix_plain ext :
  toLowerCase ext ∈ ["csv"; "xes"; "xlsx"] ->
  ext <> "" /\ Forall plain (list_ascii_of_string ext)
  /\ String "." (toLowerCase ext) ∈ allowedExtensions.
Proof.
  intros Hin.
  assert (Hlow : toLowerCase ext <> ""
                 /\ Forall plain (list_ascii_of_string (toLowerCase ext))
                 /\ String "." (toLowerCase ext) ∈ allowedExtensions).
  { unfold allowedExtensions.
    repeat (apply elem_of_cons in Hin as [-> | Hin];
            [ split; [discriminate |]; split;
              [ repeat constructor; discriminate
              | repeat first [ apply list_elem_of_here | apply list_elem_of_further ] ]
            |]).
    by apply elem_of_nil in Hin. }
  destruct Hlow as (Hne & Hplain & Hall).
  split; [| split; [by apply toLowerCase_plain | exact Hall]].
  intros ->. by apply Hne.
Qed.

Lemma without_dot e :
  String "." e ∈ allowedExtensions -> e ∈ ["csv"; "xes"; "xlsx"].
Proof.
  unfold allowedExtensions. intros Hin.
  repeat (apply elem_of_cons in Hin as [Hin | Hin];
          [ injection Hin as ->;
            repeat first [ apply list_elem_of_here | apply list_elem_of_further ] |]).
  by apply elem_of_nil in Hin.
Qed.

(** X10.  A name [b ++ c ++ "." ++ ext], with [c] not a slash and [ext] one of
    the allowed extensions in any letter case, has that extension, lowered, as
    [fileExt]; with any non-empty content type the file passes the type
    check. *)
Theorem extension_is_accepted_in_any_letter_case f b c ext m :
  originalFilename f = Some (b +:+ String c (String "." ext)) ->
  c <> "/"%char ->
  String "." (toLowerCase ext) ∈ allowedExtensions ->
  mimetype f = Some m ->
  m <> "" ->
  fileExt f = String "." (toLowerCase ext) /\ invalid_file_type f = false.
Proof.
  intros Hname Hc Hext Hm Hne.
  apply without_dot in Hext.
  apply allowed_suffix_plain in Hext as (Hext & Hplain & Hall).
  assert (Hfe : fileExt f = String "." (toLowerCase ext)).
  { unfold fileExt. rewrite Hname.
    rewrite or_else_some by (destruct b; discriminate).
    by rewrite extname_suffix. }
  split; [exact Hfe |].
  apply accepted_iff. exists m. rewrite Hfe. auto.
Qed.

(** X11.  A file whose name has no dot (or no name at all) has the empty
    [fileExt] and passes the type check exactly when its content type is in
    the MIME allow-list. *)
Theorem name_without_dot_is_judged_by_content_type f :
  Forall (fun c => c <> "."%char)
         (list_ascii_of_string (or_else (originalFilename f) "")) ->
  fileExt f = ""
  /\ (invalid_file_type f = false <->
      exists m, mimetype f = Some m /\ m ∈ allowedMimeTypes).
Proof.
  intros Hname.
  assert (Hfe : fileExt f = "") by (unfold fileExt; by rewrite extname_no_dot).
  split; [exact Hfe |].
  rewrite accepted_iff, Hfe. split.
  - intros (m & Hm & _ & [Hext | Hmime]); [| eauto].
    unfold allowedExtensions in Hext.
    repeat (apply elem_of_cons in Hext as [Hext | Hext]; [discriminate |]).
    by apply elem_of_nil in Hext.
  - intros (m & Hm & Hin). exists m. repeat split; auto.
    intros ->. unfold allowedMimeTypes in Hin.
    repeat (apply elem_of_cons in Hin as [Hin | Hin]; [discriminate |]).
    by apply elem_of_nil in Hin.
Qed.

(** * The dashboard *)

Import Dashboard.

Lemma get_prop_not_null v k : v <> JNull -> get_prop v k = Normal (own v k).
Proof. destruct v; done. Qed.

Lemma truthy_not_null v : truthy (Some v) = true -> v <> JNull.
Proof. by intros H ->. Qed.

Lemma truthy_some d : truthy d = true -> exists j, d = Some j /\ j <> JNull.
Proof.
  destruct d as [j |]; [| discriminate].
  intros H. exists j. split; [reflexivity | by apply truthy_not_null].
Qed.

Lemma or_json_truthy v d : truthy (Some d) = true -> truthy (Some (or_json v d)) = true.
Proof.
  intros Hd. unfold or_json. destruct v as [j |]; [| exact Hd].
  destruct (truthy (Some j)) eqn:Hj; assumption.
Qed.

Lemma or_json_null v : truthy (Some (or_json v JNull)) = truthy v.
Proof.
  unfold or_json. destruct v as [j |]; [| reflexivity].
  destruct (truthy (Some j)) eqn:Hj; [exact Hj | reflexivity].
Qed.

Lemma substring_split s n :
  (n <= String.length s)%nat ->
  s = substring 0 n s +:+ substring n (String.length s - n) s.
Proof.
  revert n. induction s as [| c s IH]; intros n Hlen.
  - simpl in Hlen. assert (n = 0%nat) as -> by lia. reflexivity.
  - destruct n as [| n].
    + change (String c s = substring 0 (String.length (String c s)) (String c s)).
      by rewrite substring_whole.
    + simpl in Hlen.
      change (String c s
              = String c (substring 0 n s +:+ substring n (String.length s - n) s)).
      f_equal. apply IH. lia.
Qed.

Lemma ends_with_spec suffix s :
  ends_with suffix s = true <-> exists b, s = b +:+ suffix.
Proof.
  unfold ends_with. rewrite andb_true_iff, Nat.leb_le, String.eqb_eq. split.
  - intros [Hle Hsub].
    exists (substring 0 (String.length s - String.length suffix) s).
    pose proof (substring_split s (String.length s - String.length suffix)) as Hsplit.
    replace (String.length s - (String.length s - String.length suffix))%nat
      with (String.length suffix) in Hsplit by lia.
    rewrite Hsub in Hsplit. apply Hsplit. lia.
  - intros [b ->]. rewrite string_length_app.
    split; [lia |].
    replace (String.length b + String.length suffix - String.length suffix)%nat
      with (String.length b) by lia.
    rewrite substring_after. apply substring_whole.
Qed.

Lemma allowedExtensions_test_spec name :
  allowedExtensions_test name = true <->
  exists b ext, toLowerCase name = b +:+ ext /\ ext ∈ allowedExtensions.
Proof.
  unfold allowedExtensions_test, allowedExtensions. rewrite existsb_exists. split.
  - intros (ext & Hin & Hends). apply ends_with_spec in Hends as [b Hb].
    exists b, ext. split; [exact Hb | by apply list_elem_of_In].
  - intros (b & ext & Hb & Hin). exists ext.
    split; [by apply list_elem_of_In | apply ends_with_spec; eauto].
Qed.

(** X12.  After [handleFileChange] a file is selected only if it is the first
    of the chosen files and its name ends, in any letter case, in [.csv],
    [.xes] or [.xlsx]; the earlier results and success message are cleared,
    and an error is set only when no file is selected. *)
Theorem only_allowed_names_are_selected files s :
  let s' := after (handleFileChange files) s in
  (forall name, file s' = Some name ->
     files <> None /\ head (default [] files) = Some name
     /\ exists b ext, toLowerCase name = b +:+ ext /\ ext ∈ allowedExtensions)
  /\ (file s' = None \/ error s' = JNull)
  /\ successMessage s' = JNull
  /\ processGraphData s' = Some JNull
  /\ llmInsightsData s' = Some JNull
  /\ isLoading s' = isLoading s.
Proof.
  unfold after, handleFileChange. simpl.
  destruct files as [[| selected rest] |]; simpl.
  - repeat split; auto; discriminate.
  - destruct (allowedExtensions_test selected) eqn:Htest; simpl.
    + split; [| repeat split; auto].
      intros name [= <-]. repeat split; [discriminate |].
      by apply allowedExtensions_test_spec.
    + repeat split; auto; discriminate.
  - repeat split; auto; discriminate.
Qed.

(** X13.  [handleSubmit] without a selected file sets ['Please select a file
    to upload.'] and does nothing else: no token is asked, nothing is posted,
    the loading flag and the results are as they were. *)
Theorem submit_without_file_asks_nothing net s :
  file s = None ->
  let s' := after (handleSubmit net) s in
  calls (handleSubmit net) s = [PreventDefault]
  /\ error s' = JStr "Please select a file to upload."
  /\ isLoading s' = isLoading s
  /\ successMessage s' = successMessage s
  /\ processGraphData s' = processGraphData s
  /\ llmInsightsData s' = llmInsightsData s.
Proof.
  intros Hfile. unfold after, calls, handleSubmit. simpl. rewrite Hfile. simpl.
  repeat split.
Qed.

Lemma read_truthy d k :
  truthy d = true -> exists j, d = Some j /\ read d k = Normal (own j k).
Proof.
  intros H. apply truthy_some in H as (j & -> & Hj). exists j.
  split; [reflexivity | by apply get_prop_not_null].
Qed.

Lemma or_else_truthy o d :
  d <> "" -> negb (or_else o d =? "")%string = true.
Proof.
  intros Hd. apply negb_true_iff, String.eqb_neq.
  unfold or_else. destruct o as [c |]; simpl; [| exact Hd].
  destruct (c =? "")%string eqn:Hc; [exact Hd | by apply String.eqb_neq].
Qed.

Lemma or_else_filled o d : d <> "" -> or_else o d <> "".
Proof.
  intros Hd. pose proof (or_else_truthy o d Hd) as H.
  by apply negb_true_iff, String.eqb_neq in H.
Qed.

(** The three facts every exit shares, then the exit that sets an error of
    the page's own and leaves the results empty. *)
Ltac shared :=
  split; [reflexivity |]; split; [reflexivity |];
  split; [first [reflexivity | assumption] |].
Ltac own_error :=
  left;
  split; [eexists; split; [reflexivity | first [ discriminate | by apply or_else_filled ]] |];
  split; [reflexivity |]; split; [reflexivity |]; split; [reflexivity |].

(** Every way out of [handleSubmit] once a file is selected: with an error
    of the page's own, with the error of a failed reply, or with the message
    of a successful one. *)
Lemma submit_cases net s n :
  file s = Some n ->
  let s' := after (handleSubmit net) s in
  completes (handleSubmit net) s = Normal tt
  /\ isLoading s' = false
  /\ file s' = Some n
  /\ (((exists m, error s' = JStr m /\ m <> "")
       /\ successMessage s' = JNull
       /\ processGraphData s' = Some JNull
       /\ llmInsightsData s' = Some JNull
       /\ (falsy (sessionToken net) = true
           \/ forall status v, reply net = Response status (Json v) ->
                v = JNull
                \/ (ok status = true /\ truthy (own v "success") = true
                    /\ truthy (own v "data") = false)))
      \/ (exists status v,
            falsy (sessionToken net) = false
            /\ reply net = Response status (Json v)
            /\ (ok status = false \/ truthy (own v "success") = false)
            /\ error s' = or_json (own v "message")
                            (JStr "An unknown error occurred during processing.")
            /\ successMessage s' = JNull
            /\ ((truthy (own v "data") = false
                 /\ processGraphData s' = Some JNull
                 /\ llmInsightsData s' = Some JNull)
                \/ exists data,
                     own v "data" = Some data
                     /\ truthy (Some data) = true
                     /\ processGraphData s' = Some (or_json (own data "processGraph") JNull)
                     /\ llmInsightsData s' = Some (or_json (own data "llmInsights") JNull)))
      \/ exists status v data,
           falsy (sessionToken net) = false
           /\ reply net = Response status (Json v)
           /\ ok status = true
           /\ truthy (own v "success") = true
           /\ own v "data" = Some data
           /\ truthy (Some data) = true
           /\ error s' = JNull
           /\ successMessage s' = or_json (own v "message")
                                    (JStr "File processed successfully!")
           /\ processGraphData s' = own data "processGraph"
           /\ llmInsightsData s' = own data "llmInsights").
Proof.
  intros Hfile. unfold after, completes, handleSubmit, submit. simpl.
  rewrite Hfile. simpl.
  destruct (falsy (sessionToken net)) eqn:Htoken; simpl.
  { shared. own_error. by left. }
  destruct (reply net) as [cause | status [v | cause]] eqn:Hreply; simpl.
  - shared. own_error. right. by intros ? ? [=].
  - destruct (null_or_not v) as [-> | Hv].
    { destruct (ok status); simpl; shared;
        own_error; right; intros ? ? [= <- <-]; by left. }
    rewrite ?(get_prop_not_null v) by assumption.
    destruct (ok status) eqn:Hok; simpl.
    + rewrite ?(get_prop_not_null v) by assumption. simpl.
      destruct (truthy (own v "success")) eqn:Hsuccess; simpl.
      * rewrite ?(get_prop_not_null v) by assumption. simpl. rewrite Hsuccess.
        rewrite ?(get_prop_not_null v) by assumption. simpl.
        destruct (truthy (own v "data")) eqn:Hdata; simpl.
        -- destruct (read_truthy (own v "data") "processGraph" Hdata) as (data & Hd & Hpg).
           destruct (read_truthy (own v "data") "llmInsights" Hdata) as (data' & Hd' & Hli).
           assert (data' = data) as -> by congruence.
           pose proof Hdata as Htd; rewrite Hd in Htd.
           rewrite ?(get_prop_not_null v) by assumption. simpl.
           rewrite Hpg. simpl. rewrite Hli. simpl.
           shared. right. right.
           exists status, v, data. repeat split; auto.
        -- shared. own_error. right. intros ? ? [= <- <-]. right. by rewrite Hok.
      * rewrite ?(get_prop_not_null v) by assumption. simpl.
        rewrite ?(get_prop_not_null v) by assumption. simpl.
        destruct (truthy (own v "data")) eqn:Hdata; simpl.
        -- destruct (read_truthy (own v "data") "processGraph" Hdata) as (data & Hd & Hpg).
           destruct (read_truthy (own v "data") "llmInsights" Hdata) as (data' & Hd' & Hli).
           assert (data' = data) as -> by congruence.
           pose proof Hdata as Htd; rewrite Hd in Htd.
           rewrite Hpg. simpl. rewrite Hli. simpl.
           shared. right. left. exists status, v.
           do 5 (split; [first [reflexivity | by right] |]).
           right. exists data. repeat split; auto.
        -- shared. right. left. exists status, v.
           do 5 (split; [first [reflexivity | by right] |]).
           left. repeat split; assumption.
    + rewrite ?(get_prop_not_null v) by assumption. simpl.
      rewrite ?(get_prop_not_null v) by assumption. simpl.
      destruct (truthy (own v "data")) eqn:Hdata; simpl.
      * destruct (read_truthy (own v "data") "processGraph" Hdata) as (data & Hd & Hpg).
        destruct (read_truthy (own v "data") "llmInsights" Hdata) as (data' & Hd' & Hli).
        assert (data' = data) as -> by congruence.
        pose proof Hdata as Htd; rewrite Hd in Htd.
        rewrite Hpg. simpl. rewrite Hli. simpl.
        shared. right. left. exists status, v.
        do 5 (split; [first [reflexivity | by left] |]).
        right. exists data. repeat split; auto.
      * shared. right. left. exists status, v.
        do 5 (split; [first [reflexivity | by left] |]).
        left. repeat split; assumption.
  - shared. own_error. right. by intros ? ? [=].
Qed.

Lemma object_is_truthy data k : truthy (own data k) = true -> truthy (Some data) = true.
Proof. destruct data; simpl; try discriminate; reflexivity. Qed.

(** ** What React makes of the state [handleSubmit] leaves *)

Lemma child_or_default o d :
  is_Some (child (or_json o JNull)) -> is_Some (child (or_json o (JStr d))).
Proof.
  unfold or_json. destruct o as [j |]; [destruct (truthy (Some j)) |]; simpl; eauto.
Qed.

Lemma or_json_kept o :
  truthy (Some (or_json o JNull)) = true -> o = Some (or_json o JNull).
Proof.
  unfold or_json. destruct o as [j |]; [| discriminate].
  destruct (truthy (Some j)); [reflexivity | discriminate].
Qed.

Lemma render_error c s content :
  isLoading s = false ->
  truthy (Some (error s)) = true ->
  child (error s) = Some content ->
  successMessage s = JNull ->
  render c s = option_map (cons (ErrorBanner content)) (results_panel c s).
Proof.
  intros Hl He Hc Hs.
  unfold render, error_banner, success_banner, loading_panel, guarded.
  rewrite Hl, He, Hc, Hs. simpl. destruct (results_panel c s); reflexivity.
Qed.

Lemma render_success c s content :
  isLoading s = false ->
  error s = JNull ->
  truthy (Some (successMessage s)) = true ->
  child (successMessage s) = Some content ->
  render c s = option_map (cons (SuccessBanner content)) (results_panel c s).
Proof.
  intros Hl He Hs Hc.
  unfold render, error_banner, success_banner, loading_panel, guarded.
  rewrite Hl, He, Hs, Hc. simpl. destruct (results_panel c s); reflexivity.
Qed.

Lemma render_unwritable_error c s :
  truthy (Some (error s)) = true -> child (error s) = None -> render c s = None.
Proof.
  intros He Hc. unfold render, error_banner, guarded. by rewrite He, Hc.
Qed.

Lemma render_unwritable_success c s :
  error s = JNull ->
  truthy (Some (successMessage s)) = true ->
  child (successMessage s) = None ->
  render c s = None.
Proof.
  intros He Hs Hc. unfold render, error_banner, success_banner, guarded.
  by rewrite He, Hs, Hc.
Qed.

(** The results panel when the two components take what they are given:
    nothing but a stray [0] unless both parts are truthy. *)
Lemma results_panel_spec c s :
  isLoading s = false ->
  (forall graph insights,
     processGraphData s = Some graph -> llmInsightsData s = Some insights ->
     truthy (Some graph) = true -> truthy (Some insights) = true ->
     ProcessGraph c (own graph "nodes") (own graph "links") = true
     /\ InsightsPanel c insights = true) ->
  exists r,
    results_panel c s = Some r
    /\ existsb is_error_banner r = false
    /\ existsb is_success_banner r = false
    /\ existsb is_results_panel r
       = truthy (processGraphData s) && truthy (llmInsightsData s).
Proof.
  intros Hl Hc. unfold results_panel, guarded. rewrite Hl. simpl.
  destruct (truthy (processGraphData s)) eqn:Hg.
  - destruct (truthy (llmInsightsData s)) eqn:Hi.
    + apply truthy_some in Hg as Hg'. destruct Hg' as (graph & Hpg & _).
      apply truthy_some in Hi as Hi'. destruct Hi' as (insights & Hli & _).
      rewrite Hpg, Hli in *.
      destruct (Hc graph insights eq_refl eq_refl Hg Hi) as [-> ->].
      eexists. repeat split.
    + destruct (llmInsightsData s) as [[] |]; eexists; repeat split.
  - destruct (processGraphData s) as [[] |]; eexists; repeat split.
Qed.

(** The page after [handleSubmit], for a reply it can put on screen: one
    banner, then what the results panel gives. *)
Lemma page_after_submit c net s n :
  file s = Some n ->
  (forall status v, reply net = Response status (Json v) -> presentable c v) ->
  let s' := after (handleSubmit net) s in
  exists content r,
    render c s'
    = Some ((if truthy (Some (error s')) then ErrorBanner content
             else SuccessBanner content) :: r)
    /\ existsb is_error_banner r = false
    /\ existsb is_success_banner r = false
    /\ existsb is_results_panel r
       = truthy (processGraphData s') && truthy (llmInsightsData s').
Proof.
  intros Hfile Hgood.
  destruct (submit_cases net s n Hfile) as (_ & Hl & _ & Hcases). cbv zeta.
  set (s' := after (handleSubmit net) s) in *.
  assert (Hpanel : forall v data,
            presentable c v -> own v "data" = Some data ->
            (processGraphData s' = own data "processGraph"
             \/ processGraphData s' = Some (or_json (own data "processGraph") JNull)) ->
            (llmInsightsData s' = own data "llmInsights"
             \/ llmInsightsData s' = Some (or_json (own data "llmInsights") JNull)) ->
            exists r,
              results_panel c s' = Some r
              /\ existsb is_error_banner r = false
              /\ existsb is_success_banner r = false
              /\ existsb is_results_panel r
                 = truthy (processGraphData s') && truthy (llmInsightsData s')).
  { intros v data [_ Hparts] Hd Hpg Hli. apply results_panel_spec; [exact Hl |].
    intros graph insights Hg Hi Htg Hti. apply (Hparts data); try assumption.
    - destruct Hpg as [Hpg | Hpg]; [congruence |].
      rewrite Hg in Hpg. injection Hpg as ->. by apply or_json_kept.
    - destruct Hli as [Hli | Hli]; [congruence |].
      rewrite Hi in Hli. injection Hli as ->. by apply or_json_kept. }
  assert (Hempty : processGraphData s' = Some JNull ->
            exists r,
              results_panel c s' = Some r
              /\ existsb is_error_banner r = false
              /\ existsb is_success_banner r = false
              /\ existsb is_results_panel r
                 = truthy (processGraphData s') && truthy (llmInsightsData s')).
  { intros Hpg. apply results_panel_spec; [exact Hl |].
    intros graph insights Hg. rewrite Hpg in Hg. injection Hg as <-. discriminate. }
  destruct Hcases
    as [((m & He & Hm) & Hs & Hpg & Hli & _)
       | [(st & v & _ & Hr & _ & He & Hs & Hres)
         | (st & v & data & _ & Hr & _ & _ & Hd & _ & He & Hs & Hpg & Hli)]].
  - destruct (Hempty Hpg) as (r & Hrp & Hrest).
    exists (if (m =? "")%string then [] else [Text m]), r.
    rewrite (render_error c s' (if (m =? "")%string then [] else [Text m]));
      try assumption.
    + rewrite Hrp, He. simpl. apply String.eqb_neq in Hm. rewrite Hm. simpl.
      split; [reflexivity | exact Hrest].
    + rewrite He. simpl. apply String.eqb_neq in Hm. by rewrite Hm.
    + by rewrite He.
  - pose proof (Hgood st v Hr) as Hp.
    assert (Htruthy : truthy (Some (error s')) = true)
      by (rewrite He; by apply or_json_truthy).
    destruct (child_or_default (own v "message")
                "An unknown error occurred during processing." (proj1 Hp))
      as (content & Hc).
    rewrite <- He in Hc.
    assert (Hrp : exists r,
              results_panel c s' = Some r
              /\ existsb is_error_banner r = false
              /\ existsb is_success_banner r = false
              /\ existsb is_results_panel r
                 = truthy (processGraphData s') && truthy (llmInsightsData s')).
    { destruct Hres as [(_ & Hpg & _) | (data & Hd & _ & Hpg & Hli)];
        [by apply Hempty | apply (Hpanel v data); auto]. }
    destruct Hrp as (r & Hrp & Hrest).
    exists content, r.
    rewrite (render_error c s' content); try assumption.
    rewrite Hrp, Htruthy. simpl. split; [reflexivity | exact Hrest].
  - pose proof (Hgood st v Hr) as Hp.
    assert (Htruthy : truthy (Some (successMessage s')) = true)
      by (rewrite Hs; by apply or_json_truthy).
    destruct (child_or_default (own v "message")
                "File processed successfully!" (proj1 Hp))
      as (content & Hc).
    rewrite <- Hs in Hc.
    destruct (Hpanel v data Hp Hd (or_introl Hpg) (or_introl Hli)) as (r & Hrp & Hrest).
    exists content, r.
    rewrite (render_success c s' content); try assumption.
    rewrite Hrp, He. simpl. split; [reflexivity | exact Hrest].
Qed.


(** X15.  After [handleSubmit] with a file selected, when every JSON reply
    is one the page can put on screen (a [message] React can write,
    components that take the data), React renders the page and it shows
    either the error or the success message, never both and never neither. *)
Theorem submit_shows_error_or_success c net s n :
  file s = Some n ->
  (forall status v, reply net = Response status (Json v) -> presentable c v) ->
  let s' := after (handleSubmit net) s in
  is_Some (render c s')
  /\ shows_error c s' = negb (shows_success c s').
Proof.
  intros Hfile Hgood.
  destruct (page_after_submit c net s n Hfile Hgood)
    as (content & r & Hrender & Hne & Hns & _).
  cbv zeta. unfold shows_error, shows_success, shows. rewrite Hrender.
  split; [eauto |].
  destruct (truthy (Some (error (after (handleSubmit net) s))));
    simpl; by rewrite ?Hne, ?Hns.
Qed.

(** X16.  With a session token and a JSON reply the page can put on screen,
    the results panel is shown after [handleSubmit] exactly when the reply's
    [data] has a truthy [processGraph] and a truthy [llmInsights], whatever
    the status and the [success] flag. *)
Theorem results_are_shown_iff_both_parts_arrive c net s n status v :
  file s = Some n ->
  falsy (sessionToken net) = false ->
  reply net = Response status (Json v) ->
  presentable c v ->
  let s' := after (handleSubmit net) s in
  shows_results c s' = true <->
  exists data,
    own v "data" = Some data
    /\ truthy (own data "processGraph") = true
    /\ truthy (own data "llmInsights") = true.
Proof.
  intros Hfile Htoken Hreply Hp.
  assert (Hgood : forall st w, reply net = Response st (Json w) -> presentable c w).
  { intros st w Hr. assert (w = v) as -> by congruence. exact Hp. }
  destruct (page_after_submit c net s n Hfile Hgood)
    as (content & r & Hrender & _ & _ & Hres).
  destruct (submit_cases net s n Hfile) as (_ & _ & _ & Hcases).
  cbv zeta. unfold shows_results, shows. rewrite Hrender.
  assert (Hhead : existsb is_results_panel
            ((if truthy (Some (error (after (handleSubmit net) s)))
              then ErrorBanner content else SuccessBanner content) :: r)
          = existsb is_results_panel r).
  { by destruct (truthy (Some (error (after (handleSubmit net) s)))). }
  rewrite Hhead, Hres. clear Hhead Hres Hrender.
  destruct Hcases
    as [(_ & _ & Hpg & Hli & Hwhy)
       | [(st & v' & _ & Hr & _ & _ & _ & Hres)
         | (st & v' & data & _ & Hr & _ & _ & Hd & _ & _ & _ & Hpg & Hli)]].
  - rewrite Hpg, Hli. simpl. split; [discriminate |].
    intros (data & Hd & Hpart & _). exfalso.
    destruct Hwhy as [Hno | Hno]; [congruence |].
    destruct (Hno status v Hreply) as [-> | (_ & _ & Hdata)]; [discriminate Hd |].
    rewrite Hd in Hdata. apply object_is_truthy in Hpart. congruence.
  - assert (v' = v) as -> by congruence.
    destruct Hres as [(Hdata & Hpg & Hli) | (data & Hd & _ & Hpg & Hli)].
    + rewrite Hpg, Hli. simpl. split; [discriminate |].
      intros (data & Hd & Hpart & _). exfalso.
      rewrite Hd in Hdata. apply object_is_truthy in Hpart. congruence.
    + rewrite Hpg, Hli, !or_json_null, andb_true_iff. split.
      * intros [Hg Hi]. by exists data.
      * intros (data' & Hd' & Hg & Hi).
        assert (data' = data) as -> by congruence. done.
  - assert (v' = v) as -> by congruence.
    rewrite Hpg, Hli, andb_true_iff. split.
    + intros [Hg Hi]. by exists data.
    + intros (data' & Hd' & Hg & Hi). assert (data' = data) as -> by congruence. done.
Qed.

(** X17.  When every JSON reply is one the page can put on screen, the
    success message is shown after [handleSubmit] exactly when there was a
    session token and the reply had an [ok] status, a truthy [success] and a
    truthy [data]. *)
Theorem success_is_shown_iff_ok_success_and_data c net s n :
  file s = Some n ->
  (forall status v, reply net = Response status (Json v) -> presentable c v) ->
  let s' := after (handleSubmit net) s in
  shows_success c s' = true <->
  falsy (sessionToken net) = false
  /\ exists status v,
       reply net = Response status (Json v)
       /\ ok status = true
       /\ truthy (own v "success") = true
       /\ truthy (own v "data") = true.
Proof.
  intros Hfile Hgood.
  destruct (page_after_submit c net s n Hfile Hgood)
    as (content & r & Hrender & _ & Hns & _).
  destruct (submit_cases net s n Hfile) as (_ & _ & _ & Hcases).
  cbv zeta. unfold shows_success, shows. rewrite Hrender. clear Hrender.
  destruct Hcases
    as [((m & He & Hm) & _ & _ & _ & Hwhy)
       | [(st & v & Htok & Hr & Hfail & He & _)
         | (st & v & data & Htok & Hr & Hok & Hsucc & Hd & Htd & He & _)]].
  - apply String.eqb_neq in Hm. rewrite He. simpl. rewrite Hm. simpl. rewrite Hns.
    split; [discriminate |].
    intros (Htok & st & v & Hr & _ & Hsucc & Hdata). exfalso.
    destruct Hwhy as [Hno | Hno]; [congruence |].
    destruct (Hno st v Hr) as [-> | (_ & _ & Hnone)]; [discriminate Hsucc | congruence].
  - rewrite He, or_json_truthy by reflexivity. simpl. rewrite Hns.
    split; [discriminate |].
    intros (_ & st' & v' & Hr' & Hok & Hsucc & _). exfalso.
    assert (st' = st /\ v' = v) as [-> ->] by (split; congruence).
    destruct Hfail; congruence.
  - rewrite He. simpl. split; [| reflexivity]. intros _. split; [exact Htok |].
    exists st, v. repeat split; auto. by rewrite Hd.
Qed.

(** X28.  A reply whose truthy [message] is an object is never put on
    screen: whether the page stores it as its error (failed reply) or as its
    success message (successful reply with data), React throws on it, and the
    page shows no message and no results. *)
Theorem object_message_takes_the_page_down c net s n status v m :
  file s = Some n ->
  falsy (sessionToken net) = false ->
  reply net = Response status (Json v) ->
  own v "message" = Some m ->
  truthy (Some m) = true ->
  child m = None ->
  ok status = false \/ truthy (own v "success") = false \/ truthy (own v "data") = true ->
  let s' := after (handleSubmit net) s in
  (error s' = m \/ successMessage s' = m)
  /\ render c s' = None
  /\ shows_error c s' = false
  /\ shows_success c s' = false
  /\ shows_results c s' = false.
Proof.
  intros Hfile Htoken Hreply Hm Htruthy Hchild Hbranch.
  destruct (submit_cases net s n Hfile) as (_ & _ & _ & Hcases). cbv zeta.
  assert (Hkept : forall d, or_json (own v "message") d = m).
  { intros d. rewrite Hm. unfold or_json. by rewrite Htruthy. }
  set (s' := after (handleSubmit net) s) in *.
  assert (Hdown : render c s' = None ->
            render c s' = None
            /\ shows_error c s' = false
            /\ shows_success c s' = false
            /\ shows_results c s' = false).
  { intros Hnone. unfold shows_error, shows_success, shows_results, shows.
    by rewrite Hnone. }
  destruct Hcases
    as [(_ & _ & _ & _ & Hwhy)
       | [(st & v' & _ & Hr & _ & He & _)
         | (st & v' & data & _ & Hr & _ & _ & _ & _ & He & Hs & _)]].
  - exfalso. destruct Hwhy as [Hno | Hno]; [congruence |].
    destruct (Hno status v Hreply) as [-> | (Hok & Hsucc & Hdata)]; [discriminate Hm |].
    destruct Hbranch as [? | [? | ?]]; congruence.
  - assert (v' = v) as -> by congruence. rewrite Hkept in He.
    split; [by left |]. apply Hdown.
    apply render_unwritable_error; by rewrite He.
  - assert (v' = v) as -> by congruence. rewrite Hkept in Hs.
    split; [by right |]. apply Hdown.
    apply render_unwritable_success; [exact He | by rewrite Hs | by rewrite Hs].
Qed.

(** ** The dashboard in front of the route *)

Lemma failure_response env req d :
  gateway_failure env req d ->
  exists st m,
    responses (trace (snd (serve env req d))) = [(st, message_only m)]
    /\ m <> "" /\ 400 <= st.
Proof.
  intros Hfail.
  destruct (serve_cases env req d)
    as [H | (files & f & status & v & Hpost & Huser & Htoken & Hdir & Hup
             & Hfile & Hpath & Hgood & Hurl & Hb & _)]; [exact H |].
  exfalso. destruct Hfail as [H | H | H | e Hnin He | message H | files' H Hnone
                              | files' f' H Hfile' Hbad | H | cause H | status' cause H];
    try congruence.
  - destruct Hdir; [contradiction | congruence].
  - assert (files' = files) as -> by congruence.
    rewrite (Hnone f Hfile) in Hpath. discriminate.
Qed.

Lemma not_ok_from_400 st : 400 <= st -> ok st = false.
Proof. intros H. unfold ok. apply andb_false_iff. right. apply Z.leb_gt. lia. Qed.

Ltac on_screen :=
  unfold shows_error, shows_success, shows_results, shows, render, error_banner,
    success_banner, loading_panel, results_panel, guarded.

(** X18.  When the route ends a request in one of its own failure classes
    and the page receives that response, the page shows the route's message
    as its error, and nothing else: no success message and no results. *)
Theorem gateway_failure_is_shown_as_error c env req d net s n :
  gateway_failure env req d ->
  file s = Some n ->
  falsy (sessionToken net) = false ->
  reply net = upload_reply env req d ->
  let s' := after (handleSubmit net) s in
  exists status m,
    responses (trace (snd (serve env req d))) = [(status, message_only m)]
    /\ error s' = JStr m
    /\ render c s' = Some [ErrorBanner [Text m]]
    /\ shows_error c s' = true
    /\ shows_success c s' = false
    /\ shows_results c s' = false.
Proof.
  intros Hfail Hfile Htoken Hreply.
  destruct (failure_response env req d Hfail) as (st & m & Hr & Hm & Hst).
  exists st, m. split; [exact Hr |].
  unfold upload_reply in Hreply. rewrite Hr in Hreply.
  apply not_ok_from_400 in Hst. apply String.eqb_neq in Hm.
  on_screen. unfold after, handleSubmit, submit.
  simpl. rewrite Hfile. simpl. rewrite Htoken. simpl. rewrite Hreply. simpl.
  rewrite Hst. simpl. rewrite Hm. simpl. rewrite Hm. repeat split.
Qed.

Lemma presentable_envelope c v : presentable c v -> presentable c (envelope v).
Proof.
  intros [Hm Hparts]. split.
  - rewrite envelope_message.
    destruct (truthy (own v "message")) eqn:Ht; [exact Hm |].
    simpl. eauto.
  - intros data graph insights Hd. rewrite envelope_data in Hd. by apply Hparts.
Qed.

Section Page.
Variables (env : Env) (req : Request) (d : gset string).
Variables (files : list (string * FieldValue)) (f : File).
Variables (c : Components) (net : Net) (s : State) (n : string).
Hypothesis Hpost : method req = "POST".
Hypothesis Huser : falsy (userId req) = false.
Hypothesis Htoken : falsy (token req) = false.
Hypothesis Hdir : tempUploadDir env ∈ d \/ mkdirError env = None.
Hypothesis Hup : upload req = ParseDone files.
Hypothesis Hfile : assoc "eventLogFile" files = Some (Single f).
Hypothesis Hpath : falsy (Some (filepath f)) = false.
Hypothesis Hgood : invalid_file_type f = false.
Hypothesis Hurl : falsy (NEXT_PUBLIC_BACKEND_API_URL env) = false.
Hypothesis Hselected : Dashboard.file s = Some n.
Hypothesis Hsession : falsy (sessionToken net) = false.
Hypothesis Hreply : reply net = upload_reply env req d.

Lemma upload_reply_ok status v :
  backend env = Response status (Json v) -> ok status = true ->
  upload_reply env req d = Response 200 (Json v).
Proof.
  intros Hb Hok. unfold upload_reply.
  pose proof (staged_on_disk env req d files f Hup Hfile) as Hd.
  rewrite (serve_staged env req d files f) by assumption.
  erewrite on_file_ok by eassumption.
  cbn [snd trace parsed_world]. by rewrite responses_app, responses_entry.
Qed.

Lemma upload_reply_not_ok status v :
  backend env = Response status (Json v) -> ok status = false -> v <> JNull ->
  upload_reply env req d = Response status (Json (envelope v)).
Proof.
  intros Hb Hok Hv. unfold upload_reply.
  pose proof (staged_on_disk env req d files f Hup Hfile) as Hd.
  rewrite (serve_staged env req d files f) by assumption.
  erewrite on_file_not_ok by eassumption.
  cbn [snd trace parsed_world]. by rewrite responses_app, responses_entry.
Qed.

(** X19.  When the backend answers [ok] with a truthy [success] but without
    [data], the route passes the reply on and the page shows ['Received an
    unexpected response structure from the server.'] and nothing else: no
    success message and no results. *)
Theorem ok_reply_without_data_is_unexpected_on_the_page status v :
  backend env = Response status (Json v) ->
  ok status = true ->
  truthy (own v "success") = true ->
  truthy (own v "data") = false ->
  let s' := after (handleSubmit net) s in
  error s' = JStr "Received an unexpected response structure from the server."
  /\ render c s'
     = Some [ErrorBanner
               [Text "Received an unexpected response structure from the server."]]
  /\ shows_error c s' = true
  /\ shows_success c s' = false
  /\ shows_results c s' = false.
Proof.
  intros Hb Hok Hsuccess Hdata.
  rewrite (upload_reply_ok status v Hb Hok) in Hreply.
  assert (Hv : v <> JNull) by (intros ->; discriminate).
  on_screen. unfold after, handleSubmit, submit.
  simpl. rewrite Hselected. simpl. rewrite Hsession. simpl. rewrite Hreply. simpl.
  rewrite ?(get_prop_not_null v) by assumption. simpl. rewrite Hsuccess. simpl.
  rewrite ?(get_prop_not_null v) by assumption. simpl. rewrite Hsuccess.
  rewrite ?(get_prop_not_null v) by assumption. simpl. rewrite Hdata. simpl.
  repeat split.
Qed.

(** X20.  When the backend answers a failure status with [data], in a reply
    the page can put on screen, the route passes the data on and the page
    stores [processGraph] and [llmInsights] ([null] for a missing part) and
    shows the error; the results panel is shown exactly when both parts are
    truthy. *)
Theorem partial_data_reaches_the_page status v data :
  backend env = Response status (Json v) ->
  ok status = false ->
  own v "data" = Some data ->
  truthy (Some data) = true ->
  presentable c v ->
  let s' := after (handleSubmit net) s in
  shows_error c s' = true
  /\ shows_success c s' = false
  /\ processGraphData s' = Some (or_json (own data "processGraph") JNull)
  /\ llmInsightsData s' = Some (or_json (own data "llmInsights") JNull)
  /\ (shows_results c s' = true <->
      truthy (own data "processGraph") = true
      /\ truthy (own data "llmInsights") = true).
Proof.
  intros Hb Hok Hd Htd Hp.
  assert (Hv : v <> JNull) by (intros ->; discriminate).
  rewrite (upload_reply_not_ok status v Hb Hok Hv) in Hreply.
  assert (Hall : forall st w, reply net = Response st (Json w) -> presentable c w).
  { intros st w Hr. assert (w = envelope v) as -> by congruence.
    by apply presentable_envelope. }
  destruct (page_after_submit c net s n Hselected Hall)
    as (content & r & Hrender & Hne & Hns & Hres).
  destruct (submit_cases net s n Hselected) as (_ & _ & _ & Hcases).
  cbv zeta. unfold shows_error, shows_success, shows_results, shows.
  rewrite Hrender. clear Hrender.
  destruct Hcases
    as [(_ & _ & _ & _ & Hwhy)
       | [(st & v' & _ & Hr & _ & He & _ & Hparts)
         | (st & v' & data' & _ & Hr & Hok' & _)]].
  - exfalso. destruct Hwhy as [Hno | Hno]; [congruence |].
    destruct (Hno _ _ Hreply) as [Hnull | (Hok' & _)]; [discriminate Hnull | congruence].
  - assert (v' = envelope v) as -> by congruence.
    destruct Hparts as [(Hnone & _) | (data' & Hd' & _ & Hpg & Hli)].
    { exfalso. rewrite envelope_data, Hd in Hnone. congruence. }
    rewrite envelope_data, Hd in Hd'. injection Hd' as <-.
    rewrite He, or_json_truthy by reflexivity. simpl.
    rewrite Hns, Hres, Hpg, Hli, !or_json_null.
    split; [reflexivity |]. split; [reflexivity |].
    split; [reflexivity |]. split; [reflexivity |].
    apply andb_true_iff.
  - exfalso. assert (st = status) as -> by congruence. congruence.
Qed.
End Page.

(** ** The page's filter and the route's extension test *)

Lemma append_empty_r s : s +:+ "" = s.
Proof.
  induction s as [| c s IH]; [reflexivity |].
  change (String c (s +:+ "") = String c s). by rewrite IH.
Qed.

Lemma append_assoc a b c : (a +:+ b) +:+ c = a +:+ (b +:+ c).
Proof.
  induction a as [| x a IH]; [reflexivity |].
  change (String x ((a +:+ b) +:+ c) = String x (a +:+ (b +:+ c))). by rewrite IH.
Qed.

Lemma toLowerCase_app a b : toLowerCase (a +:+ b) = toLowerCase a +:+ toLowerCase b.
Proof.
  induction a as [| c a IH]; [reflexivity |].
  change (String (lower c) (toLowerCase (a +:+ b))
          = String (lower c) (toLowerCase a +:+ toLowerCase b)).
  by rewrite IH.
Qed.

Lemma toLowerCase_split s a e :
  toLowerCase s = a +:+ e ->
  exists b x, s = b +:+ x /\ toLowerCase b = a /\ toLowerCase x = e.
Proof.
  revert s. induction a as [| c a IH]; intros s H.
  - exists "", s. by repeat split.
  - destruct s as [| c' s]; [discriminate |].
    change (String (lower c') (toLowerCase s) = String c (a +:+ e)) in H.
    injection H as Hc Hs.
    destruct (IH s Hs) as (b & x & -> & Hb & Hx).
    exists (String c' b), x. repeat split; [| exact Hx].
    change (String (lower c') (toLowerCase b) = String c a). by rewrite Hc, Hb.
Qed.

Lemma lower_dot c : lower c = "."%char -> c = "."%char.
Proof.
  destruct c as [[] [] [] [] [] [] [] []]; intros H;
    first [reflexivity | discriminate H].
Qed.

Lemma snoc_string b : b <> "" -> exists b0 c, b = b0 +:+ String c "".
Proof.
  induction b as [| x b IH]; [done |]. intros _.
  destruct b as [| y b].
  - by exists "", x.
  - destruct IH as (b0 & c & Hb); [discriminate |].
    exists (String x b0), c.
    change (String x (String y b) = String x (b0 +:+ String c "")). by rewrite Hb.
Qed.

(** When the path does not end in a slash, [end] is the length of the path
    and the first dot met, if any, lies inside the path. *)
Lemma loop_bounds l i st E :
  i = Z.of_nat (length l) - 1 -> end_ st = E -> E <> -1 -> i < E ->
  (startDot st = -1 \/ 0 <= startDot st < E) ->
  let r := extname_loop l i st in
  end_ r = E /\ (startDot r = -1 \/ 0 <= startDot r < E).
Proof.
  revert i st. induction l as [| c l IH]; intros i st Hi Hend HE Hlt Hdot; simpl.
  - done.
  - assert (Hi' : i - 1 = Z.of_nat (length l) - 1) by (simpl in Hi; lia).
    assert (Hi0 : 0 <= i) by (simpl in Hi; lia).
    destruct (Ascii.eqb c "/").
    + destruct (negb (matchedSlash st)); simpl; [done |].
      apply IH; auto; lia.
    + pose proof HE as HE'. rewrite <- Hend in HE'. apply Z.eqb_neq in HE'.
      rewrite HE'.
      destruct (Ascii.eqb c "."); destruct (startDot st =? -1) eqn:Hsd; simpl;
        apply IH; simpl; auto; try lia.
Qed.

(** The extension is a suffix of a path that does not end in a slash. *)
Lemma extname_is_suffix b c :
  c <> "/"%char ->
  exists a, b +:+ String c "" = a +:+ extname (b +:+ String c "").
Proof.
  intros Hc. set (p := b +:+ String c "").
  assert (Hlen : Z.of_nat (String.length p) = Z.of_nat (String.length b) + 1).
  { unfold p. rewrite string_length_app. simpl. lia. }
  unfold extname. fold p.
  assert (Hloop :
    exists r, extname_loop (rev (list_ascii_of_string p))
                           (Z.of_nat (String.length p) - 1) scan0 = r
      /\ end_ r = Z.of_nat (String.length p)
      /\ (startDot r = -1 \/ 0 <= startDot r < Z.of_nat (String.length p))).
  { unfold p at 1. rewrite chars_app. simpl. rewrite rev_app_distr. simpl.
    pose proof Hc as Hc'. apply Ascii.eqb_neq in Hc'. rewrite Hc'. simpl.
    eexists. split; [reflexivity |].
    destruct (Ascii.eqb c ".");
      match goal with
      | |- context [extname_loop ?l ?j ?st] =>
          apply (loop_bounds l j st (Z.of_nat (String.length p))); simpl;
            rewrite ?length_rev, ?chars_length; try lia
      end. }
  destruct Hloop as (r & -> & Hend & Hdot).
  destruct ((startDot r =? -1) || (end_ r =? -1) || (preDotState r =? 0)
            || (preDotState r =? 1) && (startDot r =? end_ r - 1)
               && (startDot r =? startPart r + 1)) eqn:Hcond.
  - exists p. by rewrite append_empty_r.
  - destruct Hdot as [Hdot | Hdot].
    { rewrite Hdot in Hcond. discriminate. }
    exists (substring 0 (Z.to_nat (startDot r)) p).
    rewrite Hend.
    replace (Z.to_nat (Z.of_nat (String.length p) - startDot r))
      with (String.length p - Z.to_nat (startDot r))%nat by lia.
    apply substring_split. lia.
Qed.

(** A name that is a dot followed by characters without dot or slash has no
    extension. *)
Lemma extname_of_bare_extension ext :
  ext <> "" -> Forall plain (list_ascii_of_string ext) ->
  extname (String "." ext) = "".
Proof.
  intros Hne Hext.
  assert (Hrev : Forall plain (rev (list_ascii_of_string ext))).
  { apply Forall_forall. intros x Hx. apply list_elem_of_In, in_rev in Hx.
    rewrite Forall_forall in Hext. apply Hext. by apply list_elem_of_In. }
  assert (Hlen : length (rev (list_ascii_of_string ext)) = String.length ext)
    by (by rewrite length_rev, chars_length).
  unfold extname. simpl list_ascii_of_string. simpl rev. simpl String.length.
  destruct (rev (list_ascii_of_string ext)) as [| e0 l'] eqn:Hre.
  { destruct ext; [done | simpl in Hlen; discriminate]. }
  apply Forall_cons in Hrev as [He0 Hl']. simpl in Hlen.
  rewrite <- app_comm_cons, step_first by exact He0.
  rewrite loop_plain; [| exact Hl' | reflexivity | cbn; lia].
  rewrite step_dot by lia. simpl. by rewrite orb_true_r.
Qed.

Lemma allowed_decompose x :
  toLowerCase x ∈ allowedExtensions ->
  exists x', x = String "." x' /\ toLowerCase x' ∈ ["csv"; "xes"; "xlsx"].
Proof.
  intros Hin. destruct x as [| c0 x']; unfold allowedExtensions in Hin.
  - repeat (apply elem_of_cons in Hin as [Hin | Hin]; [discriminate |]).
    by apply elem_of_nil in Hin.
  - change (toLowerCase (String c0 x')) with (String (lower c0) (toLowerCase x')) in Hin.
    assert (Hc : lower c0 = "."%char /\ toLowerCase x' ∈ ["csv"; "xes"; "xlsx"]).
    { repeat (apply elem_of_cons in Hin as [Hin | Hin];
              [ injection Hin as -> ->; split; [reflexivity |];
                repeat first [ apply list_elem_of_here | apply list_elem_of_further ]
              |]).
      by apply elem_of_nil in Hin. }
    destruct Hc as [Hc Hx]. apply lower_dot in Hc as ->. by exists x'.
Qed.

Lemma last_is_no_slash b0 c rest :
  Forall (fun x => x <> "/"%char) (list_ascii_of_string (b0 +:+ String c rest)) ->
  c <> "/"%char.
Proof.
  rewrite chars_app, Forall_app. simpl. intros [_ H].
  by apply Forall_cons in H as [H _].
Qed.

(** X21.  On a name without a slash, the route's extension test accepts
    exactly the names the page's filter accepts, except the names that are
    nothing but [.csv], [.xes] or [.xlsx] (in any letter case), which the page
    lets through and for which [path.extname] is empty. *)
Theorem page_filter_agrees_with_route_extension_test f name :
  originalFilename f = Some name ->
  Forall (fun c => c <> "/"%char) (list_ascii_of_string name) ->
  includes allowedExtensions (Some (fileExt f)) = true <->
  allowedExtensions_test name = true /\ toLowerCase name ∉ allowedExtensions.
Proof.
  intros Hname Hslash.
  assert (Hfe : fileExt f = toLowerCase (extname name)).
  { unfold fileExt, or_else. rewrite Hname. simpl.
    destruct (name =? "")%string eqn:He; [| reflexivity].
    apply String.eqb_eq in He. by subst. }
  rewrite Hfe, includes_spec. split.
  - intros Hin.
    destruct name as [| c0 rest] eqn:Hn.
    { exfalso. unfold allowedExtensions in Hin. simpl in Hin.
      repeat (apply elem_of_cons in Hin as [Hin | Hin]; [discriminate |]).
      by apply elem_of_nil in Hin. }
    rewrite <- Hn in *.
    destruct (snoc_string name) as (b & c & Hb); [by rewrite Hn |].
    rewrite Hb in Hslash. pose proof (last_is_no_slash _ _ _ Hslash) as Hc.
    destruct (extname_is_suffix b c Hc) as (a & Ha). rewrite <- Hb in Ha.
    split.
    + apply allowedExtensions_test_spec.
      exists (toLowerCase a), (toLowerCase (extname name)).
      split; [| exact Hin]. rewrite <- toLowerCase_app. by rewrite <- Ha.
    + intros Hbare. apply allowed_decompose in Hbare as (x' & Hx & Hx').
      apply allowed_suffix_plain in Hx' as (Hne & Hplain & _).
      rewrite Hx, extname_of_bare_extension in Hin by assumption.
      unfold allowedExtensions in Hin. simpl in Hin.
      repeat (apply elem_of_cons in Hin as [Hin | Hin]; [discriminate |]).
      by apply elem_of_nil in Hin.
  - intros [Htest Hbare].
    apply allowedExtensions_test_spec in Htest as (b' & e & Hlow & He).
    apply toLowerCase_split in Hlow as (b & x & Hn & Hb & Hx).
    rewrite <- Hx in He.
    destruct (allowed_decompose x He) as (x' & -> & Hx').
    apply allowed_suffix_plain in Hx' as (Hne & Hplain & Hall).
    destruct b as [| y b].
    { exfalso. apply Hbare. rewrite Hn. exact He. }
    destruct (snoc_string (String y b)) as (b0 & c & Hsnoc); [discriminate |].
    rewrite Hsnoc, append_assoc in Hn. simpl in Hn.
    change (String c "" +:+ String "." x') with (String c (String "." x')) in Hn.
    rewrite Hn in Hslash. pose proof (last_is_no_slash _ _ _ Hslash) as Hc.
    rewrite Hn, extname_suffix by assumption. exact Hall.
Qed.

(** * [fetchWithAuth] *)

Import FetchWithAuth.


(** X23.  Passing the options [fetchWithAuth] built through it again, with
    the same token, changes nothing. *)
Theorem fetchWithAuth_is_idempotent token url options :
  fetchWithAuth token url (snd (fetchWithAuth token url options))
  = fetchWithAuth token url options.
Proof.
  unfold fetchWithAuth. simpl. f_equal. f_equal. f_equal. f_equal.
  rewrite (insert_insert_ne _ "Authorization" "Content-Type") by done.
  by rewrite !insert_insert_eq.
Qed.


Example fetchWithAuth_on_pairs :
  headers (snd (fetchWithAuth (Some "eyJhbGciOi") "/api/process"
                  {| headers := Some (Pairs [["X-Trace"; "7f3a"]; ["Accept"; "*/*"]]);
                     others := ∅ |}))
  = Some (Plain (<["Content-Type" := Str "application/json"]>
                   (<["Authorization" := Str "Bearer eyJhbGciOi"]>
                      (<["0" := Pair ["X-Trace"; "7f3a"]]>
                         (<["1" := Pair ["Accept"; "*/*"]]> ∅))))).
Proof. reflexivity. Qed.

Example fetchWithAuth_beside_lower_case :
  let given : gmap string HeaderValue := {[ "authorization" := Str "Basic dXNlcg==" ]} in
  exists props,
    headers (snd (fetchWithAuth None "/api/process"
                    {| headers := Some (Plain given); others := ∅ |}))
    = Some (Plain props)
    /\ props !! "authorization" = Some (Str "Basic dXNlcg==")
    /\ props !! "Authorization" = Some (Str "Bearer null").
Proof. eexists. split; [reflexivity |]. split; reflexivity. Qed.

(** * The first version of the route *)

(** X24.  The first version of the route answers any POST whose body parses
    with 200 ['File uploaded successfully'], without asking who the caller is,
    and never unlinks: every staged file stays on disk. *)
Theorem legacy_upload_needs_no_identity_and_keeps_every_file render env req d files :
  method req = "POST" ->
  Legacy.uploadDir env ∈ d \/ mkdirError env = None ->
  upload req = ParseDone files ->
  let w := snd (Legacy.serve render env req d) in
  responses (trace w) =
    [(200, JObj [("message", JStr "File uploaded successfully");
                 ("files", render files)])]
  /\ never authentication (trace w) = true
  /\ unlinked (trace w) = []
  /\ (forall p, p ∈ staged (upload req) -> p ∈ disk w).
Proof.
  intros Hpost Hdir Hup. unfold Legacy.serve, Legacy.handler.
  rewrite Hpost. simpl.
  destruct (bool_decide (Legacy.uploadDir env ∈ d)) eqn:E; simpl.
  - rewrite Hup. simpl. repeat split.
    intros p Hin. apply elem_of_union. left. by apply elem_of_list_to_set.
  - destruct Hdir as [Hin | Hmk];
      [apply bool_decide_eq_false in E; contradiction |].
    rewrite Hmk. simpl. rewrite Hup. simpl. repeat split.
    intros p Hin. apply elem_of_union. left. by apply elem_of_list_to_set.
Qed.

(** X25.  In the first version of the route a failing [fs.mkdirSync] is not
    caught: the exception leaves the handler and no response is sent. *)
Theorem legacy_upload_lets_mkdir_errors_escape render env req d e :
  method req = "POST" ->
  Legacy.uploadDir env ∉ d ->
  mkdirError env = Some e ->
  fst (Legacy.serve render env req d) = Thrown e
  /\ responses (trace (snd (Legacy.serve render env req d))) = [].
Proof.
  intros Hpost Hnin He. unfold Legacy.serve, Legacy.handler.
  rewrite Hpost. simpl. rewrite (bool_decide_eq_false_2 _ Hnin). simpl.
  rewrite He. simpl. split; reflexivity.
Qed.

(** * The middleware in front of the route *)

Import Middleware.

(** X26.  When [afterAuth] lets a request to a route that is not public
    through, the caller has a user id, so the route never answers 401
    ['Unauthorized: No user ID found.'] behind the middleware. *)
Theorem behind_the_middleware_the_route_finds_a_user env req d pathname url :
  afterAuth (userId req) false pathname url = Next ->
  (401, message_only "Unauthorized: No user ID found.")
    ∉ responses (trace (snd (serve env req d))).
Proof.
  unfold afterAuth. rewrite andb_false_r. simpl. rewrite andb_true_r.
  destruct (falsy (userId req)) eqn:Huser; [discriminate |]. intros _ Hin.
  destruct (serve_exit env req d) as (w & Hw & Hexit). rewrite Hw in Hin.
  destruct Hexit; cbn [snd trace] in Hin;
    rewrite ?responses_app, ?responses_entry in Hin; simpl in Hin;
    try congruence;
    apply list_elem_of_singleton in Hin; injection Hin as Hst Hbody;
    try discriminate.
  unfold envelope in Hbody. destruct (own v "success"); discriminate.
Qed.

(** * The further properties, run *)

Import Cases.

Lemma storage_error_is_500_witness :
  let w := snd (serve read_only (post (one orders_csv)) ∅) in
  responses (trace w) =
    [(500, message_only "Server configuration error for file uploads.")]
  /\ MkdirSync (tempUploadDir read_only) ∈ trace w
  /\ (forall dir keep size, FormParse dir keep size ∉ trace w)
  /\ never backend_call (trace w) = true
  /\ disk w = ∅.
Proof.
  apply (storage_error_is_500 read_only (post (one orders_csv)) ∅
           "EACCES: permission denied, mkdir '/srv/app/tmp/uploads'");
    try reflexivity.
  apply not_elem_of_empty.
Defined.

Lemma rejected_upload_is_left_on_disk_witness :
  let w := snd (serve (server refused) (post two_files) ∅) in
  responses (trace w) = [(400, message_only no_file_message)]
  /\ unlinked (trace w) = []
  /\ never backend_call (trace w) = true
  /\ (forall p, p ∈ staged (upload (post two_files)) -> p ∈ disk w).
Proof.
  apply (rejected_upload_is_left_on_disk (server refused) (post two_files) ∅
           [("eventLogFile", Several [orders_csv; second_csv])]);
    try reflexivity.
  - right. reflexivity.
  - intros f Hf. discriminate Hf.
Defined.

Lemma handler_keeps_what_was_on_disk_witness :
  "/srv/app/package.json"
    ∈ disk (snd (serve (server refused) (post (one orders_csv))
                       {[ "/srv/app/package.json" ]}))
  \/ "/srv/app/package.json"
       ∈ unlinked (trace (snd (serve (server refused) (post (one orders_csv))
                                     {[ "/srv/app/package.json" ]}))).
Proof.
  apply (handler_keeps_what_was_on_disk (server refused) (post (one orders_csv))
           {[ "/srv/app/package.json" ]} "/srv/app/package.json").
  apply elem_of_singleton. reflexivity.
Defined.

Lemma backend_request_shape_witness :
  exists base tok files f,
    NEXT_PUBLIC_BACKEND_API_URL (server refused) = Some base
    /\ token (post (one capital_csv)) = Some tok
    /\ upload (post (one capital_csv)) = ParseDone files
    /\ assoc "eventLogFile" files = Some (Single f)
    /\ "http://backend:5000/api/process" = base +:+ "/process"
    /\ "POST" = "POST"
    /\ "Bearer eyJhbGciOi" = "Bearer " +:+ tok
    /\ "file" = "file"
    /\ "orders.csv" = or_else (originalFilename f) "uploaded_file.csv"
    /\ exists declared,
         mimetype f = Some declared
         /\ declared <> ""
         /\ "text/csv" = Blob.type declared
         /\ ("text/csv" = toLowerCase declared \/ "text/csv" = "").
Proof.
  apply (backend_request_shape (server refused) (post (one capital_csv)) ∅).
  vm_compute. do 6 apply list_elem_of_further. apply list_elem_of_here.
Defined.

Lemma allowed_content_type_is_forwarded_whatever_the_name_witness :
  Fetch "http://backend:5000/api/process" "POST" "Bearer eyJhbGciOi" "file"
        "setup.exe" "text/csv"
    ∈ trace (snd (serve (server refused) (post (one disguised_exe)) ∅)).
Proof.
  apply (allowed_content_type_is_forwarded_whatever_the_name
           (server refused) (post (one disguised_exe)) ∅
           [("eventLogFile", Single disguised_exe)] disguised_exe);
    try reflexivity.
  - right. reflexivity.
  - apply list_elem_of_here.
Defined.

Lemma null_failure_body_is_502_witness :
  let w := snd (serve (server (Response 503 (Json JNull))) (post (one orders_csv)) ∅) in
  (exists cause,
     responses (trace w) = [(502, message_only (bad_gateway_message +:+ cause))])
  /\ unlinked (trace w) = [filepath orders_csv]
  /\ (filepath orders_csv ∉ disk w).
Proof.
  apply (null_failure_body_is_502 (server (Response 503 (Json JNull)))
           (post (one orders_csv)) ∅ [("eventLogFile", Single orders_csv)] orders_csv)
    with (status := 503);
    solve [reflexivity | right; reflexivity].
Defined.

Lemma extension_is_accepted_in_any_letter_case_witness :
  fileExt shouting_csv = ".csv" /\ invalid_file_type shouting_csv = false.
Proof.
  apply (extension_is_accepted_in_any_letter_case shouting_csv "ORDER" "S" "CSV"
           "application/octet-stream");
    try reflexivity; try discriminate.
  apply list_elem_of_here.
Defined.

Lemma name_without_dot_is_judged_by_content_type_witness :
  fileExt readme = ""
  /\ (invalid_file_type readme = false <->
      exists m, mimetype readme = Some m /\ m ∈ allowedMimeTypes).
Proof.
  apply (name_without_dot_is_judged_by_content_type readme).
  simpl. repeat constructor; discriminate.
Defined.

Lemma submit_without_file_asks_nothing_witness :
  let s' := after (handleSubmit (browser (Response 200 (Json full_reply)))) idle in
  calls (handleSubmit (browser (Response 200 (Json full_reply)))) idle = [PreventDefault]
  /\ error s' = JStr "Please select a file to upload."
  /\ isLoading s' = isLoading idle
  /\ successMessage s' = successMessage idle
  /\ processGraphData s' = processGraphData idle
  /\ llmInsightsData s' = llmInsightsData idle.
Proof.
  apply (submit_without_file_asks_nothing (browser (Response 200 (Json full_reply))) idle).
  reflexivity.
Defined.


(** The hypothesis that a given reply can be put on screen by
    [Cases.components]. *)
Ltac on_this_page :=
  split; [by eexists |];
  intros data graph insights Hd Hg Hi Htg Hti;
  vm_compute in Hd;
  first [ discriminate Hd
        | injection Hd as <-; vm_compute in Hg; vm_compute in Hi;
          injection Hg as <-; injection Hi as <-;
          first [discriminate | split; reflexivity] ].
Ltac this_reply :=
  let Hr := fresh in intros ? ? Hr; simpl in Hr; injection Hr as <- <-; on_this_page.

Lemma submit_shows_error_or_success_witness :
  let s' := after (handleSubmit (browser (Response 200 (Json full_reply)))) chosen in
  is_Some (render components s')
  /\ shows_error components s' = negb (shows_success components s').
Proof.
  apply (submit_shows_error_or_success components
           (browser (Response 200 (Json full_reply))) chosen "orders.csv").
  - reflexivity.
  - this_reply.
Defined.

Lemma results_are_shown_iff_both_parts_arrive_witness :
  let s' := after (handleSubmit (browser (Response 200 (Json full_reply)))) chosen in
  shows_results components s' = true <->
  exists data,
    own full_reply "data" = Some data
    /\ truthy (own data "processGraph") = true
    /\ truthy (own data "llmInsights") = true.
Proof.
  apply (results_are_shown_iff_both_parts_arrive components
           (browser (Response 200 (Json full_reply))) chosen "orders.csv" 200);
    try reflexivity.
  on_this_page.
Defined.

Lemma success_is_shown_iff_ok_success_and_data_witness :
  let s' := after (handleSubmit (browser (Response 200 (Json full_reply)))) chosen in
  shows_success components s' = true <->
  falsy (sessionToken (browser (Response 200 (Json full_reply)))) = false
  /\ exists status v,
       reply (browser (Response 200 (Json full_reply))) = Response status (Json v)
       /\ ok status = true
       /\ truthy (own v "success") = true
       /\ truthy (own v "data") = true.
Proof.
  apply (success_is_shown_iff_ok_success_and_data components
           (browser (Response 200 (Json full_reply))) chosen "orders.csv").
  - reflexivity.
  - this_reply.
Defined.

Lemma object_message_takes_the_page_down_witness :
  let s' := after (handleSubmit (browser (Response 422 (Json structured_reply)))) chosen in
  (error s' = JObj [("code", JStr "E42"); ("detail", JStr "bad header")]
   \/ successMessage s' = JObj [("code", JStr "E42"); ("detail", JStr "bad header")])
  /\ render components s' = None
  /\ shows_error components s' = false
  /\ shows_success components s' = false
  /\ shows_results components s' = false.
Proof.
  apply (object_message_takes_the_page_down components
           (browser (Response 422 (Json structured_reply))) chosen "orders.csv"
           422 structured_reply);
    try reflexivity.
  left. reflexivity.
Defined.

Lemma gateway_failure_is_shown_as_error_witness :
  let s' := after (handleSubmit
                     (browser (upload_reply (server refused) (post (one report_pdf)) ∅)))
                  chosen in
  exists status m,
    responses (trace (snd (serve (server refused) (post (one report_pdf)) ∅)))
    = [(status, message_only m)]
    /\ error s' = JStr m
    /\ render components s' = Some [ErrorBanner [Text m]]
    /\ shows_error components s' = true
    /\ shows_success components s' = false
    /\ shows_results components s' = false.
Proof.
  apply (gateway_failure_is_shown_as_error components
           (server refused) (post (one report_pdf)) ∅
           (browser (upload_reply (server refused) (post (one report_pdf)) ∅))
           chosen "orders.csv");
    try reflexivity.
  apply (InvalidFileType _ _ _ [("eventLogFile", Single report_pdf)] report_pdf);
    reflexivity.
Defined.

Lemma ok_reply_without_data_is_unexpected_on_the_page_witness :
  let s' := after (handleSubmit
                     (browser (upload_reply
                                 (server (Response 200 (Json ok_without_data)))
                                 (post (one orders_csv)) ∅)))
                  chosen in
  error s' = JStr "Received an unexpected response structure from the server."
  /\ render components s'
     = Some [ErrorBanner
               [Text "Received an unexpected response structure from the server."]]
  /\ shows_error components s' = true
  /\ shows_success components s' = false
  /\ shows_results components s' = false.
Proof.
  apply (ok_reply_without_data_is_unexpected_on_the_page
           (server (Response 200 (Json ok_without_data))) (post (one orders_csv)) ∅
           [("eventLogFile", Single orders_csv)] orders_csv components
           (browser (upload_reply (server (Response 200 (Json ok_without_data)))
                                  (post (one orders_csv)) ∅))
           chosen "orders.csv")
    with (status := 200) (v := ok_without_data);
    solve [reflexivity | right; reflexivity].
Defined.

Lemma partial_data_reaches_the_page_witness :
  let s' := after (handleSubmit
                     (browser (upload_reply
                                 (server (Response 500 (Json partial_reply)))
                                 (post (one orders_csv)) ∅)))
                  chosen in
  shows_error components s' = true
  /\ shows_success components s' = false
  /\ processGraphData s' = Some (or_json (own partial_data "processGraph") JNull)
  /\ llmInsightsData s' = Some (or_json (own partial_data "llmInsights") JNull)
  /\ (shows_results components s' = true <->
      truthy (own partial_data "processGraph") = true
      /\ truthy (own partial_data "llmInsights") = true).
Proof.
  apply (partial_data_reaches_the_page
           (server (Response 500 (Json partial_reply))) (post (one orders_csv)) ∅
           [("eventLogFile", Single orders_csv)] orders_csv components
           (browser (upload_reply (server (Response 500 (Json partial_reply)))
                                  (post (one orders_csv)) ∅))
           chosen "orders.csv")
    with (status := 500) (v := partial_reply);
    solve [reflexivity | right; reflexivity | on_this_page].
Defined.

Lemma page_filter_agrees_with_route_extension_test_witness :
  includes allowedExtensions (Some (fileExt shouting_csv)) = true <->
  allowedExtensions_test "ORDERS.CSV" = true
  /\ toLowerCase "ORDERS.CSV" ∉ allowedExtensions.
Proof.
  apply (page_filter_agrees_with_route_extension_test shouting_csv "ORDERS.CSV").
  - reflexivity.
  - simpl. repeat constructor; discriminate.
Defined.

Lemma legacy_upload_needs_no_identity_and_keeps_every_file_witness :
  let w := snd (Legacy.serve render_nothing (server refused)
                             (anonymous "POST") ∅) in
  responses (trace w) =
    [(200, JObj [("message", JStr "File uploaded successfully");
                 ("files", render_nothing [("eventLogFile", Single orders_csv)])])]
  /\ never authentication (trace w) = true
  /\ unlinked (trace w) = []
  /\ (forall p, p ∈ staged (upload (anonymous "POST")) -> p ∈ disk w).
Proof.
  apply (legacy_upload_needs_no_identity_and_keeps_every_file
           render_nothing (server refused) (anonymous "POST") ∅
           [("eventLogFile", Single orders_csv)]);
    solve [reflexivity | right; reflexivity].
Defined.

Lemma legacy_upload_lets_mkdir_errors_escape_witness :
  fst (Legacy.serve render_nothing read_only (anonymous "POST") ∅)
  = Thrown "EACCES: permission denied, mkdir '/srv/app/tmp/uploads'"
  /\ responses (trace (snd (Legacy.serve render_nothing read_only
                                         (anonymous "POST") ∅))) = [].
Proof.
  apply (legacy_upload_lets_mkdir_errors_escape
           render_nothing read_only (anonymous "POST") ∅);
    try reflexivity.
  apply not_elem_of_empty.
Defined.

Lemma behind_the_middleware_the_route_finds_a_user_witness :
  (401, message_only "Unauthorized: No user ID found.")
    ∉ responses (trace (snd (serve (server refused) (post (one orders_csv)) ∅))).
Proof.
  apply (behind_the_middleware_the_route_finds_a_user
           (server refused) (post (one orders_csv)) ∅
           "/api/upload" "http://localhost:3000/api/upload").
  reflexivity.
Defined.
